(** * Payment revisions, withdrawal validation and renewal gates of siad

    A shallow embedding of
    - [types.FileContractRevision.PaymentRevision]   (types/filecontracts.go),
    - [modules.AccountID] and [modules.WithdrawalMessage] (modules/payments.go),
    - [renter.Session.payByContract]                  (renter payment code),
    - the host's renewal gates [renewAllowed] and [verifyRenewedContract],
    - the consensus state's diffs ([applyDiffSet])    (consensus/diffs.go),
    - the pure loops of the renter's snapshot code    (modules/renter/snapshot.go),
    together with the properties the specification states about them. *)

From Stdlib Require Import ZArith NArith Lia Bool.
From Stdlib Require Import Strings.String Strings.Ascii Strings.Byte.
From stdpp Require Import base list strings gmap.

Local Open Scope N_scope.

(** ** Primitives *)

(** Modelled from the spec: the declaration of [types.Currency] is missing;
    the specification describes it as an opaque arbitrary-precision
    unsigned value with checked arithmetic.  [Sub] is only ever reached behind
    a [Cmp] guard in the code below. *)
Module Currency.
Definition t : Type := N.
Definition Zero : t := 0.
(** [x.Cmp(y)] is negative, zero or positive. *)
Definition Cmp (x y : t) : Z :=
  match N.compare x y with Lt => (-1)%Z | Eq => 0%Z | Gt => 1%Z end.
Definition Add (x y : t) : t := x + y.
Definition Sub (x y : t) : t := x - y.
End Currency.

#[global] Instance byte_eq_decision : EqDecision byte := Byte.byte_eq_dec.

(** 64-bit unsigned words ([uint64], [types.BlockHeight]): naturals below
    [2^64]; the only arithmetic that can leave the range is written out. *)
Definition uint64_modulus : N := 2 ^ 64.
Definition MaxUint64 : N := uint64_modulus - 1.
Definition uint64_incr (n : N) : N := (n + 1) mod uint64_modulus.

(** Errors in the style of the [errors] packages the code uses: a base error,
    an error with added context ([AddContext], [fmt.Errorf "...: %w"]), an
    extended error ([Extend]) and the composition of two errors
    ([Compose]). *)
Inductive error : Type :=
| ErrNew (msg : string)
| ErrContext (e : error) (ctx : string)
| ErrExtend (e1 e2 : error)
| ErrCompose (e1 e2 : error).

#[global] Instance error_eq_dec : EqDecision error.
Proof. solve_decision. Defined.

(** [errors.Contains]: [k] is [e] or occurs somewhere inside it. *)
Fixpoint Contains (e k : error) : bool :=
  bool_decide (e = k) ||
  match e with
  | ErrNew _ => false
  | ErrContext e' _ => Contains e' k
  | ErrExtend e1 e2 | ErrCompose e1 e2 => Contains e1 k || Contains e2 k
  end.

(** [errors.Compose] at its two-argument use: nil errors are dropped, and
    the result is nil when nothing is left. *)
Definition Compose (a b : option error) : option error :=
  match a, b with
  | None, None => None
  | Some e, None => Some e
  | None, Some e => Some e
  | Some e1, Some e2 => Some (ErrCompose e1 e2)
  end.

(** What a call can do besides handing back its (Go-style) return values:
    panic. *)
Inductive outcome (A : Type) : Type :=
| Returns (a : A)
| Panics (msg : string).
Arguments Returns {A} a.
Arguments Panics {A} msg.

Definition index_out_of_range : string := "index out of range".

(** Go's [copy(dst, src)]: the first [min (len dst) (len src)] elements of
    [src] overwrite the front of [dst]. *)
Definition go_copy {A} (dst src : list A) : list A :=
  take (length dst) src ++ drop (length src) dst.

(** ** types/filecontracts.go *)
Module types.

Definition UnlockHash : Type := list byte.
Definition Hash : Type := list byte.
Definition BlockHeight : Type := N.

Record SiacoinOutput : Type := mkSiacoinOutput {
  Value : Currency.t;
  OutUnlockHash : UnlockHash
}.

(** The zero value of the struct, as [make] fills a fresh slice with. *)
Definition zeroOutput : SiacoinOutput := mkSiacoinOutput Currency.Zero [].

Definition set_Value (v : Currency.t) (o : SiacoinOutput) : SiacoinOutput :=
  mkSiacoinOutput v (OutUnlockHash o).

Record FileContractRevision : Type := mkFileContractRevision {
  ParentID : Hash;
  UnlockConditions : list (list byte);
  NewRevisionNumber : N;
  NewFileSize : N;
  NewFileMerkleRoot : Hash;
  NewWindowStart : BlockHeight;
  NewWindowEnd : BlockHeight;
  NewValidProofOutputs : list SiacoinOutput;
  NewMissedProofOutputs : list SiacoinOutput;
  NewUnlockHash : UnlockHash
}.

Record FileContract : Type := mkFileContract {
  FileSize : N;
  FileMerkleRoot : Hash;
  WindowStart : BlockHeight;
  WindowEnd : BlockHeight;
  Payout : Currency.t;
  ValidProofOutputs : list SiacoinOutput;
  MissedProofOutputs : list SiacoinOutput;
  FcUnlockHash : UnlockHash;
  RevisionNumber : N
}.

Definition with_outputs (fcr : FileContractRevision)
    (num : N) (valid missed : list SiacoinOutput) : FileContractRevision :=
  mkFileContractRevision (ParentID fcr) (UnlockConditions fcr) num
    (NewFileSize fcr) (NewFileMerkleRoot fcr) (NewWindowStart fcr)
    (NewWindowEnd fcr) valid missed (NewUnlockHash fcr).

(** [types.SiaPublicKey]: an algorithm specifier and the key bytes. *)
Record SiaPublicKey : Type := mkSiaPublicKey {
  Algorithm : list byte;
  Key : list byte
}.

Definition ErrRevisionCostTooHigh : error :=
  ErrNew "Can't create new revision with this cost. Not enough funds remaining to cover it".

(** The zero value [FileContractRevision{}] returned next to an error. *)
Definition zeroRevision : FileContractRevision :=
  mkFileContractRevision [] [] 0 0 [] 0 0 [] [] [].

(** [PaymentRevision]: the slices of the copy are fresh ones of length 2
    and 3; every read [fcr.X[i]] panics when [i] is out of range. *)
Definition PaymentRevision (fcr : FileContractRevision) (amount : Currency.t)
    : outcome (FileContractRevision * option error) :=
  let valid0 := go_copy (replicate 2 zeroOutput) (NewValidProofOutputs fcr) in
  let missed0 := go_copy (replicate 3 zeroOutput) (NewMissedProofOutputs fcr) in
  (* Check that there are enough funds to pay this cost. *)
  match NewValidProofOutputs fcr !! 0%nat with
  | None => Panics index_out_of_range
  | Some v0 =>
    if (Currency.Cmp (Value v0) amount <? 0)%Z then
      Returns (zeroRevision,
        Some (ErrContext ErrRevisionCostTooHigh "valid proof output smaller than cost"))
    else
    match NewMissedProofOutputs fcr !! 0%nat with
    | None => Panics index_out_of_range
    | Some m0 =>
      if (Currency.Cmp (Value m0) amount <? 0)%Z then
        Returns (zeroRevision,
          Some (ErrContext ErrRevisionCostTooHigh "missed proof output smaller than cost"))
      else
      (* move valid payout from renter to host *)
      let valid1 := alter (set_Value (Currency.Sub (Value v0) amount)) 0%nat valid0 in
      match NewValidProofOutputs fcr !! 1%nat with
      | None => Panics index_out_of_range
      | Some v1 =>
        let valid2 := alter (set_Value (Currency.Add (Value v1) amount)) 1%nat valid1 in
        (* move missed payout from renter to void *)
        let missed1 := alter (set_Value (Currency.Sub (Value m0) amount)) 0%nat missed0 in
        match NewMissedProofOutputs fcr !! 2%nat with
        | None => Panics index_out_of_range
        | Some m2 =>
          let missed2 := alter (set_Value (Currency.Add (Value m2) amount)) 2%nat missed1 in
          (* increment revision number *)
          Returns (with_outputs fcr (uint64_incr (NewRevisionNumber fcr)) valid2 missed2,
                   None)
        end
      end
    end
  end.

(** Sum of the values of a list of outputs. *)
Definition sum_values (l : list SiacoinOutput) : N :=
  foldr (fun o acc => Value o + acc) 0 l.

(** Value of output [i], zero where there is none (for statements only). *)
Definition value_at (l : list SiacoinOutput) (i : nat) : N :=
  from_option Value 0 (l !! i).

(** [fcr.ID()]. *)
Definition ID (fcr : FileContractRevision) : Hash := ParentID fcr.

(** [fcr.RenterFunds()]: panics on a revision without valid-proof outputs. *)
Definition RenterFunds (fcr : FileContractRevision) : outcome Currency.t :=
  match NewValidProofOutputs fcr !! 0%nat with
  | Some o => Returns (Value o)
  | None => Panics index_out_of_range
  end.

(** [fcr.EndHeight()]. *)
Definition EndHeight (fcr : FileContractRevision) : BlockHeight :=
  NewWindowStart fcr.

End types.

(** ** modules/payments.go *)
Module modules.
Import types.

Definition PublicKey : Type := list byte.
Definition Signature : Type := list byte.

(** What the code does to the world outside: the critical-error reports of
    [build.Critical], the public-key loads, the signature verifications. *)
Inductive event : Type :=
| EvCritical (msg : string)
| EvLoadString (s : string)
| EvVerifyHash (h : Hash) (pk : PublicKey) (sig : Signature).

(** A computation leaves a trace of events and returns or panics. *)
Definition M (A : Type) : Type := (list event * outcome A)%type.

#[global] Instance M_ret : MRet M := fun A a => ([], Returns a).
#[global] Instance M_bind : MBind M := fun A B f m =>
  match m with
  | (t, Returns a) => let '(t', o) := f a in ((t ++ t')%list, o)
  | (t, Panics msg) => (t, Panics msg)
  end.

Definition emit (e : event) : M unit := ([e], Returns tt).
Definition panic {A} (msg : string) : M A := ([], Panics msg).
Definition trace {A} (m : M A) : list event := fst m.
Definition returned {A} (m : M A) : outcome A := snd m.

(** The collaborators declared in other packages, taken as
    parameters.
    - [DEBUG]: whether [build.Critical] panics after reporting (debug
      builds) or only reports (release builds);
    - [PublicKeySize]: [len(pk)] for a [crypto.PublicKey];
    - [spk_String], [spk_LoadString]: [SiaPublicKey.String] and
      [SiaPublicKey.LoadString]; the latter gives the receiver as the call
      leaves it (it starts as the zero value at both call sites) and the
      error;
    - [VerifyHash]: [crypto.VerifyHash];
    - [WritePrefixedBytes]: the bytes the encoder writes and [e.Err()];
    - [ReadPrefixedBytes]: the bytes the decoder reads from the reader's
      contents and [d.Err()]. *)
Record Externals : Type := mkExternals {
  DEBUG : bool;
  PublicKeySize : nat;
  spk_String : SiaPublicKey -> string;
  spk_LoadString : string -> SiaPublicKey * option error;
  VerifyHash : Hash -> PublicKey -> Signature -> option error;
  WritePrefixedBytes : list byte -> list byte * option error;
  ReadPrefixedBytes : list byte -> list byte * option error
}.

Definition ErrWithdrawalExpired : error :=
  ErrNew "ephemeral account withdrawal message expired".
Definition ErrWithdrawalExtremeFuture : error :=
  ErrNew "ephemeral account withdrawal message expires too far into the future".
Definition ErrWithdrawalInvalidSignature : error :=
  ErrNew "ephemeral account withdrawal message signature is invalid".

(** [AccountID] is a string; [ZeroAccountID] is the empty one. *)
Definition AccountID : Type := string.
Definition ZeroAccountID : AccountID := "".

Record WithdrawalMessage : Type := mkWithdrawalMessage {
  Account : AccountID;
  Expiry : BlockHeight;
  Amount : Currency.t;
  Nonce : list byte
}.

Section WithExternals.
Variable X : Externals.

(** [build.Critical]. *)
Definition Critical (msg : string) : M unit :=
  ([EvCritical msg], if DEBUG X then Panics msg else Returns tt).

(** [spk.LoadString(s)] on a zero-valued receiver. *)
Definition load_spk (s : string) : M (SiaPublicKey * option error) :=
  emit (EvLoadString s) ;; mret (spk_LoadString X s).

Definition FromSPK (spk : SiaPublicKey) : AccountID := spk_String X spk.

Definition IsZeroAccount (aid : AccountID) : bool :=
  String.eqb aid ZeroAccountID.

(** [aid.LoadString(s)]: returns the receiver as the call leaves it and
    the error. *)
Definition LoadString (aid : AccountID) (s : string)
    : M (AccountID * option error) :=
  '(spk, err) ← load_spk s;
  match err with
  | Some e =>
    mret (aid, Some (ErrContext e "failed to load account id from string"))
  | None => mret (FromSPK spk, None)
  end.


(** [aid.UnmarshalSia(r)]: the receiver after the call, and the error. *)
Definition UnmarshalSia (aid : AccountID) (r : list byte)
    : M (AccountID * option error) :=
  let '(idBytes, derr) := ReadPrefixedBytes X r in
  match derr with
  | Some e => mret (aid, Some e)
  | None =>
    if (length idBytes =? 0)%nat then mret (ZeroAccountID, None)
    else LoadString aid (string_of_list_byte idBytes)
  end.

(** [aid.SPK()]. *)
Definition SPK (aid : AccountID) : M SiaPublicKey :=
  (if IsZeroAccount aid
   then Critical "should never use the zero account" else mret tt) ;;
  '(spk, err) ← load_spk aid;
  (match err with
   | Some _ =>
     Critical "account id should never fail to be loaded as a SiaPublicKey"
   | None => mret tt
   end) ;;
  mret spk.

(** [aid.PK()]: with equal lengths, [copy(pk[:], spk.Key)] makes [pk] the
    key bytes. *)
Definition PK (aid : AccountID) : M PublicKey :=
  spk ← SPK aid;
  if negb (length (Key spk) =? PublicKeySize X)%nat
  then panic "key len mismatch between crypto.Publickey and types.SiaPublicKey"
  else mret (Key spk).

(** [wm.ValidateExpiry(blockHeight, expiry)]. *)
Definition ValidateExpiry (wm : WithdrawalMessage)
    (blockHeight expiry : BlockHeight) : option error :=
  (* Verify the current blockheight does not exceed the expiry *)
  if Expiry wm <? blockHeight then Some ErrWithdrawalExpired
  (* Verify the withdrawal is not too far into the future *)
  else if expiry <? Expiry wm then Some ErrWithdrawalExtremeFuture
  else None.

(** [wm.ValidateSignature(hash, sig)]. *)
Definition ValidateSignature (wm : WithdrawalMessage)
    (hash : Hash) (sig : Signature) : M (option error) :=
  pk ← PK (Account wm);
  emit (EvVerifyHash hash pk sig) ;;
  match VerifyHash X hash pk sig with
  | Some err => mret (Some (ErrExtend err ErrWithdrawalInvalidSignature))
  | None => mret None
  end.

(** [wm.Validate]: both arguments of [errors.Compose] are evaluated, left
    to right, before it is called. *)
Definition Validate (wm : WithdrawalMessage)
    (blockHeight expiry : BlockHeight) (hash : Hash) (sig : Signature)
    : M (option error) :=
  let e1 := ValidateExpiry wm blockHeight expiry in
  e2 ← ValidateSignature wm hash sig;
  mret (Compose e1 e2).

End WithExternals.
End modules.

(** ** The renter's payment code ([Session.payByContract]) *)
Module renter.

Definition Hash : Type := list byte.
Definition PublicKey : Type := list byte.
Definition PrivateKey : Type := list byte.
Definition Signature : Type := list byte.

Record SiacoinOutput : Type := mkSiacoinOutput {
  Value : Currency.t;
  Address : list byte
}.

Definition set_Value (v : Currency.t) (o : SiacoinOutput) : SiacoinOutput :=
  mkSiacoinOutput v (Address o).

(** The revision a contract carries: the fields [payByContract] touches,
    the others kept together in [Rest]. *)
Record FileContractRevision : Type := mkRevision {
  RevisionNumber : N;
  ValidRenterOutput : SiacoinOutput;
  ValidHostOutput : SiacoinOutput;
  MissedRenterOutput : SiacoinOutput;
  MissedHostOutput : SiacoinOutput;
  Rest : list byte
}.

(** [rhp.Contract]. *)
Record Contract : Type := mkContract {
  ID : Hash;
  Revision : FileContractRevision;
  HostSignature : Signature;
  RenterSignature : Signature
}.

Record payByContract_t : Type := mkPayByContract {
  contract : Contract;
  privkey : PrivateKey;
  hostKey : PublicKey;
  refundAccountID : PublicKey
}.

Record ContractOutputs : Type := mkContractOutputs {
  MissedHostValue : Currency.t;
  MissedRenterValue : Currency.t;
  ValidHostValue : Currency.t;
  ValidRenterValue : Currency.t
}.

Record PayByContractRequest : Type := mkPayByContractRequest {
  RefundAccount : PublicKey;
  ContractID : Hash;
  NewRevisionNumber : N;
  NewOutputs : ContractOutputs;
  ReqSignature : Signature
}.

Record RPCRevisionSigningResponse : Type := mkResponse {
  RespSignature : Signature
}.

(** What a session talks to, taken as parameters: the chain manager's
    [TipContext], the validation context's [ContractSigHash], the key
    operations, and the stream: what writing the request returns and what
    reading the response then yields. *)
Record Session (VC : Type) : Type := mkSession {
  TipContext : VC * option error;
  ContractSigHash : VC -> FileContractRevision -> Hash;
  SignHash : PrivateKey -> Hash -> Signature;
  VerifyHash : PublicKey -> Hash -> Signature -> bool;
  WriteRequest : PayByContractRequest -> option error;
  ReadResponse : PayByContractRequest -> RPCRevisionSigningResponse * option error
}.
Arguments TipContext {VC} s.
Arguments ContractSigHash {VC} s.
Arguments SignHash {VC} s.
Arguments VerifyHash {VC} s.
Arguments WriteRequest {VC} s.
Arguments ReadResponse {VC} s.

(** The revision update of [payByContract] (the lines under "update the
    revision to pay for the usage"). *)
Definition payment_revision (rev : FileContractRevision) (amount : Currency.t)
    : FileContractRevision :=
  let revision := rev in
  let n := uint64_incr (RevisionNumber revision) in
  let vr := set_Value (Currency.Sub (Value (ValidRenterOutput revision)) amount)
              (ValidRenterOutput revision) in
  let mr := set_Value (Currency.Sub (Value (MissedRenterOutput revision)) amount)
              (MissedRenterOutput revision) in
  let vh := set_Value (Currency.Add (Value (ValidHostOutput revision)) amount)
              (ValidHostOutput revision) in
  let mh := set_Value (Currency.Add (Value (MissedHostOutput revision)) amount)
              (MissedHostOutput revision) in
  mkRevision n vr vh mr mh (Rest revision).

(** [s.payByContract(stream, payment, amount)]: the contract [payment]
    points to as the call leaves it, and the error. *)
Definition payByContract {VC} (s : Session VC) (payment : payByContract_t)
    (amount : Currency.t) : Contract * option error :=
  let c := contract payment in
  (* verify the contract has enough funds to pay the amount. *)
  if (Currency.Cmp (Value (ValidRenterOutput (Revision c))) amount <? 0)%Z then
    (c, Some (ErrNew "insufficient renter funds"))
  else if (Currency.Cmp (Value (MissedRenterOutput (Revision c))) amount <? 0)%Z then
    (c, Some (ErrNew "insufficient renter funds"))
  else
  let '(vc, err) := TipContext s in
  match err with
  | Some e => (c, Some (ErrContext e "failed to get current validation context"))
  | None =>
    (* update the revision to pay for the usage. *)
    let revision := payment_revision (Revision c) amount in
    let revisionHash := ContractSigHash s vc revision in
    let req := mkPayByContractRequest (refundAccountID payment) (ID c)
                 (RevisionNumber revision)
                 (mkContractOutputs (Value (MissedHostOutput revision))
                    (Value (MissedRenterOutput revision))
                    (Value (ValidHostOutput revision))
                    (Value (ValidRenterOutput revision)))
                 (SignHash s (privkey payment) revisionHash) in
    (* write the payment request. *)
    match WriteRequest s req with
    | Some e =>
      (c, Some (ErrContext e "failed to write contract payment request specifier"))
    | None =>
      (* read the payment response. *)
      let '(resp, rerr) := ReadResponse s req in
      match rerr with
      | Some e => (c, Some (ErrContext e "failed to read contract payment response"))
      | None =>
        (* verify the host's signature. *)
        if negb (VerifyHash s (hostKey payment) revisionHash (RespSignature resp)) then
          (c, Some (ErrNew "could not verify host signature"))
        else
          (* update the contract to reflect the payment and new signatures *)
          (mkContract (ID c) revision (RespSignature resp) (ReqSignature req), None)
      end
    end
  end.

End renter.

(** ** The host's renewal gates *)
Module host.
Import types.

Definition ErrNotAcceptingContracts : error := ErrNew "ErrNotAcceptingContracts".
Definition ErrLateRevision : error := ErrNew "ErrLateRevision".
Definition ErrBadFileSize : error := ErrNew "ErrBadFileSize".
Definition ErrBadFileMerkleRoot : error := ErrNew "ErrBadFileMerkleRoot".
Definition ErrEarlyWindow : error := ErrNew "ErrEarlyWindow".
Definition ErrSmallWindow : error := ErrNew "ErrSmallWindow".
Definition ErrLongDuration : error := ErrNew "ErrLongDuration".
Definition ErrBadContractOutputCounts : error := ErrNew "ErrBadContractOutputCounts".
Definition ErrBadPayoutUnlockHashes : error := ErrNew "ErrBadPayoutUnlockHashes".
Definition ErrBadUnlockHash : error := ErrNew "ErrBadUnlockHash".
Definition errMaxCollateralReached : error := ErrNew "errMaxCollateralReached".
Definition errCollateralBudgetExceeded : error := ErrNew "errCollateralBudgetExceeded".
Definition ErrLowHostValidOutput : error := ErrNew "ErrLowHostValidOutput".
Definition ErrLowHostMissedOutput : error := ErrNew "ErrLowHostMissedOutput".
Definition ErrLowVoidOutput : error := ErrNew "ErrLowVoidOutput".

(** The settings and the obligation, with the fields the gates read. *)
Record HostExternalSettings : Type := mkHostExternalSettings {
  Collateral : Currency.t;
  MaxCollateral : Currency.t;
  ContractPrice : Currency.t;
  MaxDuration : BlockHeight;
  EsUnlockHash : UnlockHash;
  StoragePrice : Currency.t;
  WindowSize : BlockHeight
}.

Record HostInternalSettings : Type := mkHostInternalSettings {
  CollateralBudget : Currency.t
}.

Record storageObligation : Type := mkStorageObligation {
  fileSize : N;
  merkleRoot : Hash
}.

(** The unlock hash of the void: all zero bytes. *)
Definition ZeroUnlockHash : UnlockHash := replicate 32 "000"%byte.

Definition hash_eqb (a b : list byte) : bool := bool_decide (a = b).

Section Renewal.
(** The functions and the constant the gates use are declared elsewhere:
    taken as parameters. *)
Variable revisionSubmissionBuffer : BlockHeight.
Variable RenewBaseCosts :
  FileContractRevision -> HostExternalSettings -> Currency.t -> BlockHeight
  -> Currency.t * Currency.t.
Variable renewContractCollateral :
  FileContractRevision -> HostExternalSettings -> Currency.t -> FileContract
  -> Currency.t * option error.
Variable multisigUnlockHash : SiaPublicKey -> SiaPublicKey -> UnlockHash.

(** Modelled from the spec: the body of [renewAllowed] is missing (its
    test, TestAcceptRenewal, is there).  Admission gate: [NotAcceptingContracts] if the
    host is not accepting new obligations; [LateRevision] if
    [windowStart <= currentHeight + revisionSubmissionBuffer]. *)
Definition renewAllowed (acceptingNewContracts : bool)
    (currentHeight windowStart : BlockHeight) : option error :=
  if negb acceptingNewContracts then Some ErrNotAcceptingContracts
  else if windowStart <=? currentHeight + revisionSubmissionBuffer
  then Some ErrLateRevision
  else None.

(** Gates 3 to 5 of the renewal verification: size and root continuity,
    window gates, output shape. *)
Definition shape_gates (so : storageObligation) (fc : FileContract)
    (blockHeight : BlockHeight) (es : HostExternalSettings)
    (renterPK hostPK : SiaPublicKey) : option error :=
  if negb (FileSize fc =? fileSize so) then Some ErrBadFileSize
  else if negb (hash_eqb (FileMerkleRoot fc) (merkleRoot so))
  then Some ErrBadFileMerkleRoot
  else if WindowStart fc <=? blockHeight + revisionSubmissionBuffer
  then Some ErrEarlyWindow
  else if (Z.of_N (WindowEnd fc) - Z.of_N (WindowStart fc) <? Z.of_N (WindowSize es))%Z
  then Some ErrSmallWindow
  else if (Z.of_N (MaxDuration es) <? Z.of_N (WindowStart fc) - Z.of_N blockHeight)%Z
  then Some ErrLongDuration
  else
  match ValidProofOutputs fc, MissedProofOutputs fc with
  | [_; hostValid], [_; hostMissed; void] =>
    if negb (hash_eqb (OutUnlockHash hostValid) (EsUnlockHash es)
             && hash_eqb (OutUnlockHash hostMissed) (EsUnlockHash es)
             && hash_eqb (OutUnlockHash void) ZeroUnlockHash)
    then Some ErrBadPayoutUnlockHashes
    else if negb (hash_eqb (FcUnlockHash fc) (multisigUnlockHash renterPK hostPK))
    then Some ErrBadUnlockHash
    else None
  | _, _ => Some ErrBadContractOutputCounts
  end.

(** Gate 7: the collateral budget gates. *)
Definition collateral_gates (hi : HostInternalSettings)
    (es : HostExternalSettings) (lockedCollateral expectedCollateral : Currency.t)
    : option error :=
  if (0 <? Currency.Cmp expectedCollateral (MaxCollateral es))%Z
  then Some errMaxCollateralReached
  else if (0 <? Currency.Cmp (Currency.Add lockedCollateral expectedCollateral)
                  (CollateralBudget hi))%Z
  then Some errCollateralBudgetExceeded
  else None.

(** Gate 8: the value gates. *)
Definition value_gates (fc : FileContract) (es : HostExternalSettings)
    (basePrice baseCollateral : Currency.t) : option error :=
  let hostValid := value_at (ValidProofOutputs fc) 1 in
  let hostMissed := value_at (MissedProofOutputs fc) 1 in
  let void := value_at (MissedProofOutputs fc) 2 in
  if (Currency.Cmp hostValid (Currency.Add (ContractPrice es) basePrice) <? 0)%Z
  then Some ErrLowHostValidOutput
  else if (Currency.Cmp hostMissed
             (Currency.Sub (Currency.Sub hostValid baseCollateral) basePrice) <? 0)%Z
  then Some ErrLowHostMissedOutput
  else if (Currency.Cmp void (Currency.Add baseCollateral basePrice) <? 0)%Z
  then Some ErrLowVoidOutput
  else None.

(** Modelled from the spec: the body of [verifyRenewedContract] is missing
    (its test, TestVerifyRenewedContract, is there).  The gates are evaluated in the fixed
    order of the specification, stopping at the first failure.  The test
    sets [MaxCollateral] below the value [renewContractCollateral]
    returns and expects [errMaxCollateralReached], so the collateral gate
    compares that value as returned. *)
Definition verifyRenewedContract (so : storageObligation) (fc : FileContract)
    (oldRevision : FileContractRevision) (blockHeight : BlockHeight)
    (hi : HostInternalSettings) (es : HostExternalSettings)
    (rpcCost : Currency.t) (renterPK hostPK : SiaPublicKey)
    (lockedCollateral : Currency.t) : option error :=
  match shape_gates so fc blockHeight es renterPK hostPK with
  | Some e => Some e
  | None =>
    let '(basePrice, baseCollateral) :=
      RenewBaseCosts oldRevision es rpcCost (WindowStart fc) in
    let '(expectedCollateral, err) :=
      renewContractCollateral oldRevision es rpcCost fc in
    match err with
    | Some e => Some e
    | None =>
      match collateral_gates hi es lockedCollateral expectedCollateral with
      | Some e => Some e
      | None => value_gates fc es basePrice baseCollateral
      end
    end
  end.

End Renewal.
End host.

(** ** consensus/diffs.go *)
Module consensus.

(** Ids (hashes) and heights are numbers. *)
Abbreviation SiacoinOutputID := N.
Abbreviation FileContractID := N.
Abbreviation SiafundOutputID := N.
Abbreviation BlockID := N.

Record SiafundOutput : Type := mkSiafundOutput {
  SfValue : Currency.t;
  SfUnlockHash : types.UnlockHash;
  ClaimStart : Currency.t
}.

Record SiacoinOutputDiff : Type := mkSiacoinOutputDiff {
  scod_New : bool;
  scod_ID : SiacoinOutputID;
  scod_SiacoinOutput : types.SiacoinOutput
}.

Record FileContractDiff : Type := mkFileContractDiff {
  fcd_New : bool;
  fcd_ID : FileContractID;
  fcd_FileContract : types.FileContract
}.

Record SiafundOutputDiff : Type := mkSiafundOutputDiff {
  sfod_New : bool;
  sfod_ID : SiafundOutputID;
  sfod_SiafundOutput : SiafundOutput
}.

Record SiafundPoolDiff : Type := mkSiafundPoolDiff {
  Previous : Currency.t;
  Adjusted : Currency.t
}.

(** The fields of [State] that diffs.go reads and writes. *)
Record State : Type := mkState {
  siacoinOutputs : gmap SiacoinOutputID types.SiacoinOutput;
  fileContracts : gmap FileContractID types.FileContract;
  siafundOutputs : gmap SiafundOutputID SiafundOutput;
  siafundPool : Currency.t;
  delayedSiacoinOutputs : gmap N (gmap SiacoinOutputID types.SiacoinOutput);
  currentPath : gmap N BlockID;
  currentBlockID : BlockID
}.

(** The fields of a [blockNode] that [applyDiffSet] reads: [block_ID] is
    [bn.block.ID()], [parent_block_ID] is [bn.parent.block.ID()], absent when
    [bn.parent] is nil. *)
Record blockNode : Type := mkBlockNode {
  block_ID : BlockID;
  parent_block_ID : option BlockID;
  height : N;
  diffsGenerated : bool;
  siafundPoolDiff : SiafundPoolDiff;
  siacoinOutputDiffs : list SiacoinOutputDiff;
  fileContractDiffs : list FileContractDiff;
  siafundOutputDiffs : list SiafundOutputDiff;
  bn_delayedSiacoinOutputs : gmap SiacoinOutputID types.SiacoinOutput
}.

Definition set_siacoinOutputs (s : State)
    (m : gmap SiacoinOutputID types.SiacoinOutput) : State :=
  mkState m (fileContracts s) (siafundOutputs s) (siafundPool s)
    (delayedSiacoinOutputs s) (currentPath s) (currentBlockID s).

Definition set_fileContracts (s : State)
    (m : gmap FileContractID types.FileContract) : State :=
  mkState (siacoinOutputs s) m (siafundOutputs s) (siafundPool s)
    (delayedSiacoinOutputs s) (currentPath s) (currentBlockID s).

Definition set_siafundOutputs (s : State)
    (m : gmap SiafundOutputID SiafundOutput) : State :=
  mkState (siacoinOutputs s) (fileContracts s) m (siafundPool s)
    (delayedSiacoinOutputs s) (currentPath s) (currentBlockID s).

Definition set_siafundPool (s : State) (c : Currency.t) : State :=
  mkState (siacoinOutputs s) (fileContracts s) (siafundOutputs s) c
    (delayedSiacoinOutputs s) (currentPath s) (currentBlockID s).

Definition set_delayedSiacoinOutputs (s : State)
    (m : gmap N (gmap SiacoinOutputID types.SiacoinOutput)) : State :=
  mkState (siacoinOutputs s) (fileContracts s) (siafundOutputs s) (siafundPool s)
    m (currentPath s) (currentBlockID s).

Definition set_current (s : State) (path : gmap N BlockID) (id : BlockID) : State :=
  mkState (siacoinOutputs s) (fileContracts s) (siafundOutputs s) (siafundPool s)
    (delayedSiacoinOutputs s) path id.

(** [_, exists := m[k]]. *)
Definition exists_in {V} (m : gmap N V) (k : N) : bool :=
  match m !! k with Some _ => true | None => false end.

(** A [for ... range] loop over calls that may panic. *)
Fixpoint for_range {D S} (f : D -> S -> outcome S) (ds : list D) (s : S)
    : outcome S :=
  match ds with
  | [] => Returns s
  | d :: r =>
    match f d s with
    | Returns s' => for_range f r s'
    | Panics msg => Panics msg
    end
  end.

Definition nil_dereference : string :=
  "invalid memory address or nil pointer dereference".

Section WithDebug.
(** The package constant [DEBUG]. *)
Variable DEBUG : bool.

Definition commitSiacoinOutputDiff (scod : SiacoinOutputDiff) (forward : bool)
    (s : State) : outcome State :=
  let add := scod_New scod in
  let add := if negb forward then negb add else add in
  if add then
    (* Sanity check - output should not already exist. *)
    if DEBUG && exists_in (siacoinOutputs s) (scod_ID scod)
    then Panics "rogue new output in applyOutputDiff"
    else Returns (set_siacoinOutputs s
                    (<[scod_ID scod := scod_SiacoinOutput scod]> (siacoinOutputs s)))
  else
    (* Sanity check - output should exist. *)
    if DEBUG && negb (exists_in (siacoinOutputs s) (scod_ID scod))
    then Panics "rogue non-new output in applyOutputDiff"
    else Returns (set_siacoinOutputs s (delete (scod_ID scod) (siacoinOutputs s))).

Definition commitFileContractDiff (fcd : FileContractDiff) (forward : bool)
    (s : State) : outcome State :=
  let add := fcd_New fcd in
  let add := if negb forward then negb add else add in
  if add then
    (* Sanity check - contract should not already exist. *)
    if DEBUG && exists_in (fileContracts s) (fcd_ID fcd)
    then Panics "rogue new contract in applyContractDiff"
    else Returns (set_fileContracts s
                    (<[fcd_ID fcd := fcd_FileContract fcd]> (fileContracts s)))
  else
    (* Sanity check - contract should exist. *)
    if DEBUG && negb (exists_in (fileContracts s) (fcd_ID fcd))
    then Panics "rogue non-new contract in applyContractDiff"
    else Returns (set_fileContracts s (delete (fcd_ID fcd) (fileContracts s))).

Definition commitSiafundOutputDiff (sfod : SiafundOutputDiff) (forward : bool)
    (s : State) : outcome State :=
  let add := sfod_New sfod in
  let add := if negb forward then negb add else add in
  if add then
    (* Sanity check - output should not already exist. *)
    if DEBUG && exists_in (siafundOutputs s) (sfod_ID sfod)
    then Panics "rogue new output in applyOutputDiff"
    else Returns (set_siafundOutputs s
                    (<[sfod_ID sfod := sfod_SiafundOutput sfod]> (siafundOutputs s)))
  else
    (* Sanity check - output should exist. *)
    if DEBUG && negb (exists_in (siafundOutputs s) (sfod_ID sfod))
    then Panics "rogue non-new output in applyOutputDiff"
    else Returns (set_siafundOutputs s (delete (sfod_ID sfod) (siafundOutputs s))).

Definition commitSiafundPoolDiff (sfpd : SiafundPoolDiff) (forward : bool)
    (s : State) : State :=
  if forward then set_siafundPool s (Adjusted sfpd)
  else set_siafundPool s (Previous sfpd).

Definition applyDiffSet (bn : blockNode) (direction : bool) (s : State)
    : outcome State :=
  (* Sanity check - diffs should have already been generated for this node. *)
  if DEBUG && negb (diffsGenerated bn)
  then Panics "misuse of applyDiffSet - diffs have not been generated!"
  else
  (* Apply the siacoin, file contract, and siafund diffs. *)
  let s := commitSiafundPoolDiff (siafundPoolDiff bn) direction s in
  match for_range (fun scod => commitSiacoinOutputDiff scod direction)
          (siacoinOutputDiffs bn) s with
  | Panics msg => Panics msg
  | Returns s =>
  match for_range (fun fcd => commitFileContractDiff fcd direction)
          (fileContractDiffs bn) s with
  | Panics msg => Panics msg
  | Returns s =>
  match for_range (fun sfod => commitSiafundOutputDiff sfod direction)
          (siafundOutputDiffs bn) s with
  | Panics msg => Panics msg
  | Returns s =>
    (* Manage the delayed outputs that have been created by the node. *)
    let s :=
      if direction
      then set_delayedSiacoinOutputs s
             (<[height bn := bn_delayedSiacoinOutputs bn]> (delayedSiacoinOutputs s))
      else set_delayedSiacoinOutputs s (delete (height bn) (delayedSiacoinOutputs s)) in
    (* Update the current path and currentBlockID *)
    if direction
    then Returns (set_current s (<[height bn := block_ID bn]> (currentPath s))
                    (block_ID bn))
    else
      match parent_block_ID bn with
      | Some parent => Returns (set_current s (delete (height bn) (currentPath s)) parent)
      | None => Panics nil_dereference
      end
  end end end.

End WithDebug.

(** Whether a diff adds its element when applied in a direction. *)
Definition adds (new forward : bool) : bool :=
  if negb forward then negb new else new.

(** A list of diffs fits a map in a direction when no id occurs twice and
    every element a diff adds is absent and every element a diff removes is
    there as the diff has it. *)
Definition fits {D V} (new : D -> bool) (id : D -> N) (val : D -> V)
    (forward : bool) (ds : list D) (m : gmap N V) : Prop :=
  NoDup (map id ds) /\
  Forall (fun d => m !! id d = if adds (new d) forward then None else Some (val d)) ds.

(** The common shape of the three commit functions, on the map alone. *)
Definition commit_entry {V} (DEBUG : bool) (msg_new msg_old : string)
    (add : bool) (k : N) (v : V) (m : gmap N V) : outcome (gmap N V) :=
  if add then
    if DEBUG && exists_in m k then Panics msg_new else Returns (<[k := v]> m)
  else
    if DEBUG && negb (exists_in m k) then Panics msg_old else Returns (delete k m).

Definition commit_entries {D V} (DEBUG : bool) (msg_new msg_old : string)
    (new : D -> bool) (id : D -> N) (val : D -> V)
    (forward : bool) (ds : list D) (m : gmap N V) : outcome (gmap N V) :=
  for_range
    (fun d => commit_entry DEBUG msg_new msg_old (adds (new d) forward) (id d) (val d))
    ds m.

Definition omap_outcome {A B} (f : A -> B) (o : outcome A) : outcome B :=
  match o with
  | Returns a => Returns (f a)
  | Panics msg => Panics msg
  end.

End consensus.

(** ** modules/renter/snapshot.go: the loops over sectors and hosts *)
Module snapshot.

(** The loop of [uploadSnapshotHost] that splits the snapshot into sectors:
    while the buffer is not empty, a fresh zeroed sector of [SectorSize]
    bytes receives the next (at most) [SectorSize] bytes and is appended.
    [fuel] bounds the number of iterations; [None] is a loop that has not
    ended within it. *)
Fixpoint split_loop (SectorSize fuel : nat) (buf : list byte)
    (sectors : list (list byte)) : option (list (list byte)) :=
  match buf with
  | [] => Some sectors
  | _ :: _ =>
    match fuel with
    | O => None
    | S fuel' =>
      let sector := go_copy (replicate SectorSize "000"%byte) (take SectorSize buf) in
      split_loop SectorSize fuel' (drop SectorSize buf) (sectors ++ [sector])
    end
  end.

(** The same sectors, first one first, without the accumulator (for the
    statements). *)
Fixpoint chunks (SectorSize fuel : nat) (buf : list byte) : list (list byte) :=
  match buf with
  | [] => []
  | _ :: _ =>
    match fuel with
    | O => []
    | S fuel' =>
      go_copy (replicate SectorSize "000"%byte) (take SectorSize buf)
        :: chunks SectorSize fuel' (drop SectorSize buf)
    end
  end.

(** The sectors of a snapshot, and the error when there are more than 4. *)
Definition snapshot_sectors (SectorSize : nat) (dotSia : list byte)
    : option (list (list byte) * option error) :=
  match split_loop SectorSize (length dotSia) dotSia [] with
  | None => None
  | Some sectors =>
    if (4 <? length sectors)%nat
    then Some (sectors, Some (ErrNew "snapshot is too large"))
    else Some (sectors, None)
  end.

(** The loop of [downloadSnapshot] that downloads an entry: the sectors are
    downloaded in order and appended, and as soon as [Size] bytes are there
    they are cut to [Size] and the loop ends; a failed download ends the
    attempt with its error. *)
Fixpoint download_entry (Download : types.Hash -> list byte * option error)
    (DataSectors : list types.Hash) (Size : nat) (dotSia : list byte)
    : list byte * option error :=
  match DataSectors with
  | [] => (dotSia, None)
  | root :: rest =>
    let '(data, err) := Download root in
    match err with
    | Some e => (dotSia, Some e)
    | None =>
      let dotSia := dotSia ++ data in
      if (Size <=? length dotSia)%nat then (take Size dotSia, None)
      else download_entry Download rest Size dotSia
    end
  end.

Record RenterContract : Type := mkRenterContract {
  HostPublicKey : types.SiaPublicKey
}.

Record persistBackup : Type := mkPersistBackup {
  UID : list byte;
  Hosts : list types.SiaPublicKey
}.

Record snapshotEntry : Type := mkSnapshotEntry {
  Meta_UID : list byte;
  DataSectors : list types.Hash
}.

Section WithString.
(** [SiaPublicKey.String]. *)
Variable String_ : types.SiaPublicKey -> string.

(** The inner loop of [calcMissingHosts]. *)
Definition found_among (hosts : list types.SiaPublicKey) (c : RenterContract) : bool :=
  fold_left (fun found h => found || String.eqb (String_ h) (String_ (HostPublicKey c)))
    hosts false.

Definition calcMissingHosts (pb : persistBackup) (contracts : list RenterContract)
    : list types.SiaPublicKey :=
  fold_left
    (fun missing c =>
       if negb (found_among (Hosts pb) c) then missing ++ [HostPublicKey c]
       else missing)
    contracts [].

(** A key is known to a list of hosts when one of them prints like it. *)
Definition known_to (hosts : list types.SiaPublicKey) (k : types.SiaPublicKey) : Prop :=
  exists h, h ∈ hosts /\ String_ h = String_ k.

End WithString.

Fixpoint hasSnapshot (entryTable : list snapshotEntry) (uid : list byte) : bool :=
  match entryTable with
  | [] => false
  | e :: rest => if bool_decide (Meta_UID e = uid) then true else hasSnapshot rest uid
  end.

End snapshot.

(** ** Sample inputs *)

Definition out (v : N) : types.SiacoinOutput := types.mkSiacoinOutput v [].

Definition sample_revision (num : N) (valid missed : list N)
    : types.FileContractRevision :=
  types.mkFileContractRevision [] [] num 0 [] 0 0 (map out valid) (map out missed) [].

Definition sample_core_revision (num vr vh mr mh : N) : renter.FileContractRevision :=
  renter.mkRevision num (renter.mkSiacoinOutput vr []) (renter.mkSiacoinOutput vh [])
    (renter.mkSiacoinOutput mr []) (renter.mkSiacoinOutput mh []) [].

(** A sample renewal: a host with submission buffer 3, a contract whose
    window opens at height 4, and pricing functions that return fixed
    amounts. *)
Definition sample_buffer : types.BlockHeight := 3.

Definition sample_RenewBaseCosts
    (_ : types.FileContractRevision) (_ : host.HostExternalSettings)
    (_ : Currency.t) (_ : types.BlockHeight) : Currency.t * Currency.t := (2, 3).

Definition sample_renewContractCollateral
    (_ : types.FileContractRevision) (_ : host.HostExternalSettings)
    (_ : Currency.t) (_ : types.FileContract) : Currency.t * option error :=
  (17, None).

Definition sample_multisig (r h : types.SiaPublicKey) : types.UnlockHash :=
  types.Key r ++ types.Key h.

Definition sample_renter_key : types.SiaPublicKey :=
  types.mkSiaPublicKey [] ["001"%byte].
Definition sample_host_key : types.SiaPublicKey :=
  types.mkSiaPublicKey [] ["002"%byte].

Definition sample_settings (maxCollateral : Currency.t) : host.HostExternalSettings :=
  host.mkHostExternalSettings 1 maxCollateral 1 100 ["002"%byte] 1 10.

Definition sample_obligation : host.storageObligation :=
  host.mkStorageObligation 123 ["001"%byte].

Definition sample_contract : types.FileContract :=
  types.mkFileContract 123 ["001"%byte] 4 14 0
    [types.mkSiacoinOutput 10 ["001"%byte]; types.mkSiacoinOutput 20 ["002"%byte]]
    [types.mkSiacoinOutput 10 ["001"%byte]; types.mkSiacoinOutput 19 ["002"%byte];
     types.mkSiacoinOutput 5 host.ZeroUnlockHash]
    (sample_multisig sample_renter_key sample_host_key) 0.

(** A sample instantiation of the external collaborators of
    modules/payments.go: keys are printed as "algorithm:key" and loaded by
    splitting at the first colon; byte strings are written behind an 8-byte
    little-endian length prefix. *)
Fixpoint split_colon (s : string) : option (string * string) :=
  match s with
  | EmptyString => None
  | String c r =>
    if Ascii.eqb c ":"%char then Some (EmptyString, r)
    else match split_colon r with
         | Some (a, b) => Some (String c a, b)
         | None => None
         end
  end.

Definition sample_spk_String (k : types.SiaPublicKey) : string :=
  String.append (string_of_list_byte (types.Algorithm k))
    (String ":"%char (string_of_list_byte (types.Key k))).

Definition sample_spk_LoadString (s : string) : types.SiaPublicKey * option error :=
  match split_colon s with
  | Some (a, k) =>
    (types.mkSiaPublicKey (list_byte_of_string a) (list_byte_of_string k), None)
  | None => (types.mkSiaPublicKey [] [], Some (ErrNew "invalid public key string"))
  end.

Fixpoint le_bytes (k : nat) (n : N) : list byte :=
  match k with
  | O => []
  | S k' => default "000"%byte (Byte.of_N (n mod 256)) :: le_bytes k' (n / 256)
  end.

Fixpoint le_value (bs : list byte) : N :=
  match bs with
  | [] => 0
  | b :: r => Byte.to_N b + 256 * le_value r
  end.

Definition sample_WritePrefixedBytes (b : list byte) : list byte * option error :=
  (le_bytes 8 (N.of_nat (length b)) ++ b, None).

Definition sample_ReadPrefixedBytes (r : list byte) : list byte * option error :=
  if (length r <? 8)%nat then ([], Some (ErrNew "unexpected EOF"))
  else
    let n := N.to_nat (le_value (take 8 r)) in
    let rest := drop 8 r in
    if (length rest <? n)%nat then ([], Some (ErrNew "unexpected EOF"))
    else (take n rest, None).

Definition sample_VerifyHash (h : types.Hash) (pk : modules.PublicKey)
    (sig : modules.Signature) : option error :=
  if bool_decide (sig = h ++ pk) then None else Some (ErrNew "invalid signature").

Definition sample_externals : modules.Externals :=
  modules.mkExternals false 2 sample_spk_String sample_spk_LoadString
    sample_VerifyHash sample_WritePrefixedBytes sample_ReadPrefixedBytes.

Definition sample_key : types.SiaPublicKey :=
  types.mkSiaPublicKey (list_byte_of_string "ed25519") ["171"%byte; "205"%byte].

(** A sample consensus state and block node: the node creates output 1,
    spends output 5 and creates contract 2 at height 7. *)
Definition sample_state : consensus.State :=
  consensus.mkState {[ 5 := out 9 ]} ∅ ∅ 0 ∅ ∅ 99.

Definition sample_node : consensus.blockNode :=
  consensus.mkBlockNode 100 (Some 99) 7 true
    (consensus.mkSiafundPoolDiff 0 4)
    [consensus.mkSiacoinOutputDiff true 1 (out 3);
     consensus.mkSiacoinOutputDiff false 5 (out 9)]
    [consensus.mkFileContractDiff true 2 sample_contract]
    []
    {[ 8 := out 1 ]}.

(** A node that creates output 1 and spends it again. *)
Definition sample_node_respend : consensus.blockNode :=
  consensus.mkBlockNode 100 (Some 99) 7 true
    (consensus.mkSiafundPoolDiff 0 4)
    [consensus.mkSiacoinOutputDiff true 1 (out 3);
     consensus.mkSiacoinOutputDiff false 1 (out 3)]
    [] [] ∅.

(** * Properties *)

(** ** Helper lemmas *)

Lemma Cmp_neg (x y : Currency.t) : (Currency.Cmp x y <? 0)%Z = (x <? y).
Proof.
  unfold Currency.Cmp. rewrite N.ltb_compare.
  destruct (N.compare x y); reflexivity.
Qed.

Lemma Cmp_pos (x y : Currency.t) : (0 <? Currency.Cmp x y)%Z = (y <? x).
Proof.
  unfold Currency.Cmp. rewrite (N.ltb_compare y x), (N.compare_antisym x y).
  destruct (N.compare x y); reflexivity.
Qed.

Lemma go_copy_fresh {A} (z : A) (n : nat) (src : list A) :
  (n <= length src)%nat -> go_copy (replicate n z) src = take n src.
Proof.
  intros Hn. unfold go_copy. rewrite length_replicate.
  rewrite drop_ge by (rewrite length_replicate; exact Hn).
  apply app_nil_r.
Qed.

Lemma uint64_incr_below (n : N) : n < MaxUint64 -> uint64_incr n = n + 1.
Proof.
  unfold uint64_incr, MaxUint64, uint64_modulus. intros Hn.
  apply N.mod_small. lia.
Qed.

Lemma uint64_incr_max : uint64_incr MaxUint64 = 0.
Proof. reflexivity. Qed.

(** The shape of the revision [PaymentRevision] returns on a revision with
    at least two valid and three missed outputs and enough renter funds. *)
Lemma PaymentRevision_ok (fcr : types.FileContractRevision) (amount : Currency.t)
    (v0 v1 : types.SiacoinOutput) (vs : list types.SiacoinOutput)
    (m0 m1 m2 : types.SiacoinOutput) (ms : list types.SiacoinOutput) :
  types.NewValidProofOutputs fcr = v0 :: v1 :: vs ->
  types.NewMissedProofOutputs fcr = m0 :: m1 :: m2 :: ms ->
  amount <= types.Value v0 ->
  amount <= types.Value m0 ->
  types.PaymentRevision fcr amount =
    Returns
      (types.with_outputs fcr (uint64_incr (types.NewRevisionNumber fcr))
         [types.set_Value (types.Value v0 - amount) v0;
          types.set_Value (types.Value v1 + amount) v1]
         [types.set_Value (types.Value m0 - amount) m0;
          m1;
          types.set_Value (types.Value m2 + amount) m2],
       None).
Proof.
  intros Hv Hm Hv0 Hm0. unfold types.PaymentRevision.
  rewrite Hv, Hm. cbn [lookup list_lookup].
  rewrite !Cmp_neg.
  destruct (N.ltb_spec (types.Value v0) amount) as [Hlt|_]; [lia|].
  destruct (N.ltb_spec (types.Value m0) amount) as [Hlt|_]; [lia|].
  rewrite !go_copy_fresh by (cbn; lia).
  reflexivity.
Qed.

(** Lists with at least two, respectively three, elements. *)
Lemma length_ge_2 {A} (l : list A) :
  (2 <= length l)%nat -> exists a b r, l = a :: b :: r.
Proof.
  destruct l as [|a [|b r]]; cbn; intros H; try lia. eauto.
Qed.

Lemma length_ge_3 {A} (l : list A) :
  (3 <= length l)%nat -> exists a b c r, l = a :: b :: c :: r.
Proof.
  destruct l as [|a [|b [|c r]]]; cbn; intros H; try lia. eauto.
Qed.

(** ** Payments: field updates (C1) *)

(** C1, as stated, fails for [PaymentRevision]: on a revision with outputs
    valid [10; 5] and missed [10; 5; 0], paying 3 leaves the host's
    missed-proof output (index 1) at 5; the amount goes to the void output
    (index 2). *)
Lemma C1_counterexample :
  let fcr := sample_revision 7 [10; 5] [10; 5; 0] in
  (2 <= length (types.NewValidProofOutputs fcr))%nat /\
  (3 <= length (types.NewMissedProofOutputs fcr))%nat /\
  3 <= types.value_at (types.NewValidProofOutputs fcr) 0 /\
  3 <= types.value_at (types.NewMissedProofOutputs fcr) 0 /\
  exists rev,
    types.PaymentRevision fcr 3 = Returns (rev, None) /\
    types.value_at (types.NewMissedProofOutputs rev) 1
      <> types.value_at (types.NewMissedProofOutputs fcr) 1 + 3.
Proof.
  cbn zeta. do 4 (split; [cbn; lia|]).
  eexists. split; [reflexivity|]. vm_compute. discriminate.
Qed.

(** C1 (amended): on a revision with at least 2 valid-proof and 3
    missed-proof outputs whose renter outputs both hold at least [amount],
    [PaymentRevision] returns, without error, a revision whose number is the
    old one incremented (as a 64-bit word), whose renter valid and missed
    outputs are [amount] smaller, whose host valid output is [amount] larger,
    whose void missed output (index 2) is [amount] larger and whose host
    missed output (index 1) is unchanged.  The revision update of
    [payByContract] increments the number, takes [amount] from the renter's
    valid and missed outputs and adds it to the host's valid and missed
    outputs. *)
Theorem C1_payment_moves_amount
    (fcr : types.FileContractRevision) (crev : renter.FileContractRevision)
    (amount : Currency.t) :
  (2 <= length (types.NewValidProofOutputs fcr))%nat ->
  (3 <= length (types.NewMissedProofOutputs fcr))%nat ->
  amount <= types.value_at (types.NewValidProofOutputs fcr) 0 ->
  amount <= types.value_at (types.NewMissedProofOutputs fcr) 0 ->
  amount <= renter.Value (renter.ValidRenterOutput crev) ->
  amount <= renter.Value (renter.MissedRenterOutput crev) ->
  (exists rev,
     types.PaymentRevision fcr amount = Returns (rev, None) /\
     types.NewRevisionNumber rev
       = (types.NewRevisionNumber fcr + 1) mod 2 ^ 64 /\
     types.value_at (types.NewValidProofOutputs rev) 0
       = types.value_at (types.NewValidProofOutputs fcr) 0 - amount /\
     types.value_at (types.NewMissedProofOutputs rev) 0
       = types.value_at (types.NewMissedProofOutputs fcr) 0 - amount /\
     types.value_at (types.NewValidProofOutputs rev) 1
       = types.value_at (types.NewValidProofOutputs fcr) 1 + amount /\
     types.value_at (types.NewMissedProofOutputs rev) 2
       = types.value_at (types.NewMissedProofOutputs fcr) 2 + amount /\
     types.value_at (types.NewMissedProofOutputs rev) 1
       = types.value_at (types.NewMissedProofOutputs fcr) 1) /\
  (let rev := renter.payment_revision crev amount in
   renter.RevisionNumber rev = (renter.RevisionNumber crev + 1) mod 2 ^ 64 /\
   renter.Value (renter.ValidRenterOutput rev)
     = renter.Value (renter.ValidRenterOutput crev) - amount /\
   renter.Value (renter.MissedRenterOutput rev)
     = renter.Value (renter.MissedRenterOutput crev) - amount /\
   renter.Value (renter.ValidHostOutput rev)
     = renter.Value (renter.ValidHostOutput crev) + amount /\
   renter.Value (renter.MissedHostOutput rev)
     = renter.Value (renter.MissedHostOutput crev) + amount).
Proof.
  intros Hlv Hlm Hv Hm _ _. split.
  - destruct (length_ge_2 _ Hlv) as (v0 & v1 & vs & Ev).
    destruct (length_ge_3 _ Hlm) as (m0 & m1 & m2 & ms & Em).
    rewrite Ev in Hv. rewrite Em in Hm. cbn in Hv, Hm.
    eexists. split.
    + apply (PaymentRevision_ok fcr amount v0 v1 vs m0 m1 m2 ms Ev Em Hv Hm).
    + rewrite Ev, Em. cbn. repeat split; reflexivity.
  - cbn. repeat split; reflexivity.
Qed.

Lemma C1_payment_moves_amount_witness :
  let fcr := sample_revision 7 [10; 5] [10; 5; 0] in
  let crev := sample_core_revision 7 10 5 10 5 in
  (exists rev,
     types.PaymentRevision fcr 3 = Returns (rev, None) /\
     types.NewRevisionNumber rev = (7 + 1) mod 2 ^ 64 /\
     types.value_at (types.NewValidProofOutputs rev) 0 = 10 - 3 /\
     types.value_at (types.NewMissedProofOutputs rev) 0 = 10 - 3 /\
     types.value_at (types.NewValidProofOutputs rev) 1 = 5 + 3 /\
     types.value_at (types.NewMissedProofOutputs rev) 2 = 0 + 3 /\
     types.value_at (types.NewMissedProofOutputs rev) 1 = 5) /\
  (let rev := renter.payment_revision crev 3 in
   renter.RevisionNumber rev = (7 + 1) mod 2 ^ 64 /\
   renter.Value (renter.ValidRenterOutput rev) = 10 - 3 /\
   renter.Value (renter.MissedRenterOutput rev) = 10 - 3 /\
   renter.Value (renter.ValidHostOutput rev) = 5 + 3 /\
   renter.Value (renter.MissedHostOutput rev) = 5 + 3).
Proof.
  exact (C1_payment_moves_amount
           (sample_revision 7 [10; 5] [10; 5; 0])
           (sample_core_revision 7 10 5 10 5) 3
           ltac:(cbn; lia) ltac:(cbn; lia) ltac:(cbn; lia) ltac:(cbn; lia)
           ltac:(cbn; lia) ltac:(cbn; lia)).
Defined.

(** ** Payments: conservation of the payout (C2) *)

(** C2, as stated, fails for [PaymentRevision]: the returned revision has
    exactly 2 valid-proof outputs, so on a revision with a third valid-proof
    output of value 7 the sum of the valid-proof outputs drops from 22 to
    15. *)
Lemma C2_counterexample :
  let fcr := sample_revision 7 [10; 5; 7] [10; 5; 0] in
  (2 <= length (types.NewValidProofOutputs fcr))%nat /\
  (3 <= length (types.NewMissedProofOutputs fcr))%nat /\
  3 <= types.value_at (types.NewValidProofOutputs fcr) 0 /\
  3 <= types.value_at (types.NewMissedProofOutputs fcr) 0 /\
  exists rev,
    types.PaymentRevision fcr 3 = Returns (rev, None) /\
    types.sum_values (types.NewValidProofOutputs rev)
      <> types.sum_values (types.NewValidProofOutputs fcr).
Proof.
  cbn zeta. do 4 (split; [cbn; lia|]).
  eexists. split; [reflexivity|]. vm_compute. discriminate.
Qed.

(** C2 (amended): on a revision with exactly 2 valid-proof and exactly 3
    missed-proof outputs whose renter outputs both hold at least [amount],
    the revision [PaymentRevision] returns has the same sum of valid-proof
    output values and the same sum of missed-proof output values as the input
    revision; the revision update of [payByContract] keeps the sum of the
    renter and host valid outputs and the sum of the renter and host missed
    outputs. *)
Theorem C2_payment_conserves_payout
    (fcr : types.FileContractRevision) (crev : renter.FileContractRevision)
    (amount : Currency.t) :
  length (types.NewValidProofOutputs fcr) = 2%nat ->
  length (types.NewMissedProofOutputs fcr) = 3%nat ->
  amount <= types.value_at (types.NewValidProofOutputs fcr) 0 ->
  amount <= types.value_at (types.NewMissedProofOutputs fcr) 0 ->
  amount <= renter.Value (renter.ValidRenterOutput crev) ->
  amount <= renter.Value (renter.MissedRenterOutput crev) ->
  (exists rev,
     types.PaymentRevision fcr amount = Returns (rev, None) /\
     types.sum_values (types.NewValidProofOutputs rev)
       = types.sum_values (types.NewValidProofOutputs fcr) /\
     types.sum_values (types.NewMissedProofOutputs rev)
       = types.sum_values (types.NewMissedProofOutputs fcr)) /\
  (let rev := renter.payment_revision crev amount in
   renter.Value (renter.ValidRenterOutput rev) + renter.Value (renter.ValidHostOutput rev)
     = renter.Value (renter.ValidRenterOutput crev)
       + renter.Value (renter.ValidHostOutput crev) /\
   renter.Value (renter.MissedRenterOutput rev) + renter.Value (renter.MissedHostOutput rev)
     = renter.Value (renter.MissedRenterOutput crev)
       + renter.Value (renter.MissedHostOutput crev)).
Proof.
  intros Hlv Hlm Hv Hm Hcv Hcm. split.
  - destruct (types.NewValidProofOutputs fcr) as [|v0 [|v1 [|? ?]]] eqn:Ev;
      try discriminate Hlv.
    destruct (types.NewMissedProofOutputs fcr) as [|m0 [|m1 [|m2 [|? ?]]]] eqn:Em;
      try discriminate Hlm.
    cbn in Hv, Hm.
    eexists. split.
    + apply (PaymentRevision_ok fcr amount v0 v1 [] m0 m1 m2 [] Ev Em Hv Hm).
    + cbn. split; lia.
  - cbn. unfold Currency.Sub, Currency.Add. split; lia.
Qed.

Lemma C2_payment_conserves_payout_witness :
  let fcr := sample_revision 7 [10; 5] [10; 5; 0] in
  let crev := sample_core_revision 7 10 5 10 5 in
  (exists rev,
     types.PaymentRevision fcr 3 = Returns (rev, None) /\
     types.sum_values (types.NewValidProofOutputs rev) = 15 /\
     types.sum_values (types.NewMissedProofOutputs rev) = 15) /\
  (let rev := renter.payment_revision crev 3 in
   renter.Value (renter.ValidRenterOutput rev) + renter.Value (renter.ValidHostOutput rev)
     = 15 /\
   renter.Value (renter.MissedRenterOutput rev) + renter.Value (renter.MissedHostOutput rev)
     = 15).
Proof.
  exact (C2_payment_conserves_payout
           (sample_revision 7 [10; 5] [10; 5; 0])
           (sample_core_revision 7 10 5 10 5) 3
           eq_refl eq_refl
           ltac:(cbn; lia) ltac:(cbn; lia) ltac:(cbn; lia) ltac:(cbn; lia)).
Defined.

(** ** Payments: revision numbers (C9) *)

(** C9, as stated, fails at the largest 64-bit revision number: the
    increment wraps to 0, for [PaymentRevision] and for the revision update
    of [payByContract] alike. *)
Lemma C9_counterexample :
  let fcr := sample_revision MaxUint64 [10; 5] [10; 5; 0] in
  let crev := sample_core_revision MaxUint64 10 5 10 5 in
  (exists rev,
     types.PaymentRevision fcr 3 = Returns (rev, None) /\
     ~ types.NewRevisionNumber fcr < types.NewRevisionNumber rev) /\
  ~ renter.RevisionNumber crev
      < renter.RevisionNumber (renter.payment_revision crev 3).
Proof.
  cbn zeta. split.
  - eexists. split; [reflexivity|]. vm_compute. discriminate.
  - vm_compute. discriminate.
Qed.

(** C9 (amended): when the old revision number is below the largest 64-bit
    value, the revision returned by [PaymentRevision] (on a revision with at
    least 2 valid-proof and 3 missed-proof outputs and enough renter funds)
    and the revision produced by [payByContract]'s update have a revision
    number strictly greater than the old one. *)
Theorem C9_revision_number_increases
    (fcr : types.FileContractRevision) (crev : renter.FileContractRevision)
    (amount : Currency.t) :
  (2 <= length (types.NewValidProofOutputs fcr))%nat ->
  (3 <= length (types.NewMissedProofOutputs fcr))%nat ->
  amount <= types.value_at (types.NewValidProofOutputs fcr) 0 ->
  amount <= types.value_at (types.NewMissedProofOutputs fcr) 0 ->
  types.NewRevisionNumber fcr < MaxUint64 ->
  renter.RevisionNumber crev < MaxUint64 ->
  (exists rev,
     types.PaymentRevision fcr amount = Returns (rev, None) /\
     types.NewRevisionNumber fcr < types.NewRevisionNumber rev) /\
  renter.RevisionNumber crev
    < renter.RevisionNumber (renter.payment_revision crev amount).
Proof.
  intros Hlv Hlm Hv Hm Hn Hcn. split.
  - destruct (length_ge_2 _ Hlv) as (v0 & v1 & vs & Ev).
    destruct (length_ge_3 _ Hlm) as (m0 & m1 & m2 & ms & Em).
    rewrite Ev in Hv. rewrite Em in Hm. cbn in Hv, Hm.
    eexists. split.
    + apply (PaymentRevision_ok fcr amount v0 v1 vs m0 m1 m2 ms Ev Em Hv Hm).
    + cbn. rewrite uint64_incr_below by exact Hn. lia.
  - cbn. rewrite uint64_incr_below by exact Hcn. lia.
Qed.

Lemma C9_revision_number_increases_witness :
  let fcr := sample_revision 7 [10; 5] [10; 5; 0] in
  let crev := sample_core_revision 7 10 5 10 5 in
  (exists rev,
     types.PaymentRevision fcr 3 = Returns (rev, None) /\
     7 < types.NewRevisionNumber rev) /\
  7 < renter.RevisionNumber (renter.payment_revision crev 3).
Proof.
  exact (C9_revision_number_increases
           (sample_revision 7 [10; 5] [10; 5; 0])
           (sample_core_revision 7 10 5 10 5) 3
           ltac:(cbn; lia) ltac:(cbn; lia) ltac:(cbn; lia) ltac:(cbn; lia)
           ltac:(vm_compute; reflexivity) ltac:(vm_compute; reflexivity)).
Defined.

(** ** Withdrawal messages: the expiry check (C4) *)

(** C4: [ValidateExpiry] returns [ErrWithdrawalExpired] exactly when the
    current height is above the message's expiry, [ErrWithdrawalExtremeFuture]
    exactly when it is not and the expiry is above the maximum future expiry,
    and no error otherwise; a message whose expiry is one below the current
    height is expired, and a message whose expiry is the current height is
    not (and passes when the maximum is not below it). *)
Theorem C4_ValidateExpiry_cases
    (wm : modules.WithdrawalMessage) (currentHeight maxFutureExpiry : types.BlockHeight) :
  let r := modules.ValidateExpiry wm currentHeight maxFutureExpiry in
  (r = Some modules.ErrWithdrawalExpired <-> modules.Expiry wm < currentHeight) /\
  (r = Some modules.ErrWithdrawalExtremeFuture <->
     currentHeight <= modules.Expiry wm /\ maxFutureExpiry < modules.Expiry wm) /\
  (r = None <->
     currentHeight <= modules.Expiry wm /\ modules.Expiry wm <= maxFutureExpiry) /\
  (let wm1 := modules.mkWithdrawalMessage (modules.Account wm) currentHeight
                (modules.Amount wm) (modules.Nonce wm) in
   modules.ValidateExpiry wm1 (currentHeight + 1) maxFutureExpiry
     = Some modules.ErrWithdrawalExpired /\
   modules.ValidateExpiry wm1 currentHeight maxFutureExpiry
     <> Some modules.ErrWithdrawalExpired /\
   modules.ValidateExpiry wm1 currentHeight (currentHeight + maxFutureExpiry) = None).
Proof.
  cbn zeta. unfold modules.ValidateExpiry. cbn [modules.Expiry].
  repeat match goal with
  | |- context [N.ltb ?a ?b] => destruct (N.ltb_spec a b)
  end;
  repeat split; intros; try discriminate; try congruence; try lia;
  repeat match goal with H : _ /\ _ |- _ => destruct H end; try lia.
Qed.

(** ** Withdrawal messages: the signature check *)

Lemma Contains_refl (e : error) : Contains e e = true.
Proof. destruct e; cbn; rewrite bool_decide_eq_true_2; reflexivity. Qed.



Lemma Contains_extend_r (a b k : error) :
  Contains b k = true -> Contains (ErrExtend a b) k = true.
Proof. intros H. cbn. rewrite H. rewrite !orb_true_r. reflexivity. Qed.

Lemma ValidateSignature_returned (X : modules.Externals)
    (wm : modules.WithdrawalMessage) (h : types.Hash) (s : modules.Signature) :
  modules.returned (modules.ValidateSignature X wm h s) =
  match modules.returned (modules.PK X (modules.Account wm)) with
  | Panics msg => Panics msg
  | Returns pk =>
    Returns match modules.VerifyHash X h pk s with
            | Some err => Some (ErrExtend err modules.ErrWithdrawalInvalidSignature)
            | None => None
            end
  end.
Proof.
  unfold modules.ValidateSignature.
  destruct (modules.PK X (modules.Account wm)) as [t [pk|msg]]; cbn; [|reflexivity].
  destruct (modules.VerifyHash X h pk s); reflexivity.
Qed.

Lemma Validate_unfold (X : modules.Externals) (wm : modules.WithdrawalMessage)
    (bh ex : types.BlockHeight) (h : types.Hash) (s : modules.Signature) :
  modules.Validate X wm bh ex h s =
  (modules.trace (modules.ValidateSignature X wm h s),
   match modules.returned (modules.ValidateSignature X wm h s) with
   | Returns e2 => Returns (Compose (modules.ValidateExpiry wm bh ex) e2)
   | Panics msg => Panics msg
   end).
Proof.
  unfold modules.Validate.
  destruct (modules.ValidateSignature X wm h s) as [t [e2|msg]]; cbn;
    [rewrite app_nil_r|]; reflexivity.
Qed.

(** When the signature check panics, [Validate] panics with it, whatever the
    expiry check found. *)
Lemma Validate_panics_with_signature_check (X : modules.Externals)
    (wm : modules.WithdrawalMessage) (blockHeight expiry : types.BlockHeight)
    (hash : types.Hash) (sig : modules.Signature) (msg : string) :
  modules.returned (modules.ValidateSignature X wm hash sig) = Panics msg ->
  modules.returned (modules.Validate X wm blockHeight expiry hash sig) = Panics msg.
Proof.
  intros H. rewrite Validate_unfold. unfold modules.returned at 1. cbn [snd].
  rewrite H. reflexivity.
Qed.




(** ** Withdrawal messages: the zero account (C3) *)

(** [PK] on the zero account, evaluated. *)
Lemma PK_zero_account (X : modules.Externals) :
  modules.PK X modules.ZeroAccountID =
  if modules.DEBUG X
  then ([modules.EvCritical "should never use the zero account"],
        Panics "should never use the zero account")
  else
    let '(spk, err) := modules.spk_LoadString X "" in
    (modules.EvCritical "should never use the zero account"
       :: modules.EvLoadString ""
       :: match err with
          | Some _ =>
            [modules.EvCritical
               "account id should never fail to be loaded as a SiaPublicKey"]
          | None => []
          end,
     if negb (length (types.Key spk) =? modules.PublicKeySize X)%nat
     then Panics "key len mismatch between crypto.Publickey and types.SiaPublicKey"
     else Returns (types.Key spk)).
Proof.
  unfold modules.PK, modules.SPK, modules.load_spk, modules.Critical,
    modules.IsZeroAccount, modules.ZeroAccountID.
  cbn [String.eqb].
  destruct (modules.DEBUG X); [reflexivity|]. cbn.
  destruct (modules.spk_LoadString X "") as [spk [e|]]; cbn;
    destruct (length (types.Key spk) =? modules.PublicKeySize X)%nat; reflexivity.
Qed.

(** On a message of the zero account, [ValidateSignature] panics before any
    signature verification whenever the build is a debug build or loading
    the empty string does not yield a key of full size. *)
Lemma zero_account_never_verified (X : modules.Externals)
    (expiry : types.BlockHeight) (amount : Currency.t) (nonce : list byte)
    (hash : types.Hash) (sig : modules.Signature) :
  modules.DEBUG X = true \/
  length (types.Key (fst (modules.spk_LoadString X ""))) <> modules.PublicKeySize X ->
  let wm := modules.mkWithdrawalMessage modules.ZeroAccountID expiry amount nonce in
  let m := modules.ValidateSignature X wm hash sig in
  (forall h pk s, modules.EvVerifyHash h pk s ∉ modules.trace m) /\
  exists msg, modules.returned m = Panics msg.
Proof.
  intros H. cbn zeta.
  unfold modules.ValidateSignature. cbn [modules.Account].
  rewrite PK_zero_account.
  destruct (modules.DEBUG X) eqn:Hd; cbn.
  - split; [|eauto]. intros h pk s Hin.
    apply list_elem_of_singleton in Hin. discriminate Hin.
  - destruct H as [H|H]; [discriminate H|].
    destruct (modules.spk_LoadString X "") as [spk err]. cbn in H.
    destruct (Nat.eqb_spec (length (types.Key spk)) (modules.PublicKeySize X))
      as [Heq|_]; [exfalso; exact (H Heq)|].
    cbn. split; [|eauto]. intros h pk s Hin.
    destruct err; cbn in Hin;
      repeat (apply elem_of_cons in Hin; destruct Hin as [Hin|Hin];
              [discriminate Hin|]);
      apply elem_of_nil in Hin; exact Hin.
Qed.

(** C3 (the code at a message of the zero account): [ValidateSignature]
    calls [PK] on the account without testing [IsZeroAccount], so the first
    thing it does is report the critical error "should never use the zero
    account"; a debug build panics there, a release build goes on to load a
    public key from the empty string. *)
Theorem C3_zero_account_reaches_key_recovery (X : modules.Externals)
    (expiry : types.BlockHeight) (amount : Currency.t) (nonce : list byte)
    (hash : types.Hash) (sig : modules.Signature) :
  let wm := modules.mkWithdrawalMessage modules.ZeroAccountID expiry amount nonce in
  let m := modules.ValidateSignature X wm hash sig in
  exists rest,
    modules.trace m
      = modules.EvCritical "should never use the zero account" :: rest /\
    if modules.DEBUG X
    then rest = [] /\
         modules.returned m = Panics "should never use the zero account"
    else exists rest', rest = modules.EvLoadString "" :: rest'.
Proof.
  cbn zeta.
  unfold modules.ValidateSignature. cbn [modules.Account].
  rewrite PK_zero_account.
  destruct (modules.DEBUG X); cbn.
  - eexists. split; [reflexivity|]. split; reflexivity.
  - destruct (modules.spk_LoadString X "") as [spk err].
    destruct (length (types.Key spk) =? modules.PublicKeySize X)%nat; cbn;
      [destruct (modules.VerifyHash X hash (types.Key spk) sig); cbn|];
      eexists; (split; [reflexivity|]); eexists; reflexivity.
Qed.

(** ** Pay-by-contract: the commit (C6) *)

(** C6: [payByContract] returns no error exactly when the renter's valid and
    missed outputs cover the amount, the validation context is obtained, the
    request is written, the response is read and the host's signature
    verifies under the host key over the hash recomputed from the updated
    revision; then the contract holds the updated revision and both
    signatures; on every error the contract is left as it was. *)
Theorem C6_payByContract_commit {VC : Type} (s : renter.Session VC)
    (payment : renter.payByContract_t) (amount : Currency.t) :
  let c := renter.contract payment in
  let vc := fst (renter.TipContext s) in
  let revision := renter.payment_revision (renter.Revision c) amount in
  let revisionHash := renter.ContractSigHash s vc revision in
  let req :=
    renter.mkPayByContractRequest (renter.refundAccountID payment) (renter.ID c)
      (renter.RevisionNumber revision)
      (renter.mkContractOutputs
         (renter.Value (renter.MissedHostOutput revision))
         (renter.Value (renter.MissedRenterOutput revision))
         (renter.Value (renter.ValidHostOutput revision))
         (renter.Value (renter.ValidRenterOutput revision)))
      (renter.SignHash s (renter.privkey payment) revisionHash) in
  let resp := fst (renter.ReadResponse s req) in
  let r := renter.payByContract s payment amount in
  (snd r = None <->
     amount <= renter.Value (renter.ValidRenterOutput (renter.Revision c)) /\
     amount <= renter.Value (renter.MissedRenterOutput (renter.Revision c)) /\
     snd (renter.TipContext s) = None /\
     renter.WriteRequest s req = None /\
     snd (renter.ReadResponse s req) = None /\
     renter.VerifyHash s (renter.hostKey payment) revisionHash
       (renter.RespSignature resp) = true) /\
  (snd r <> None -> fst r = c) /\
  (snd r = None ->
     fst r = renter.mkContract (renter.ID c) revision
               (renter.RespSignature resp) (renter.ReqSignature req)).
Proof.
  cbn zeta. unfold renter.payByContract. rewrite !Cmp_neg.
  set (c := renter.contract payment).
  assert (Hfail : forall (P : Prop) (e : error), ~ P ->
    ((@snd renter.Contract _ (c, Some e) = None <-> P) /\
     (snd (c, Some e) <> None -> fst (c, Some e) = c) /\
     (snd (c, Some e) = None -> fst (c, Some e)
        = renter.mkContract (renter.ID c)
            (renter.payment_revision (renter.Revision c) amount)
            (renter.RespSignature
               (fst (renter.ReadResponse s
                  (renter.mkPayByContractRequest (renter.refundAccountID payment)
                     (renter.ID c)
                     (renter.RevisionNumber
                        (renter.payment_revision (renter.Revision c) amount))
                     (renter.mkContractOutputs
                        (renter.Value (renter.MissedHostOutput
                           (renter.payment_revision (renter.Revision c) amount)))
                        (renter.Value (renter.MissedRenterOutput
                           (renter.payment_revision (renter.Revision c) amount)))
                        (renter.Value (renter.ValidHostOutput
                           (renter.payment_revision (renter.Revision c) amount)))
                        (renter.Value (renter.ValidRenterOutput
                           (renter.payment_revision (renter.Revision c) amount))))
                     (renter.SignHash s (renter.privkey payment)
                        (renter.ContractSigHash s (fst (renter.TipContext s))
                           (renter.payment_revision (renter.Revision c) amount)))))))
            (renter.SignHash s (renter.privkey payment)
               (renter.ContractSigHash s (fst (renter.TipContext s))
                  (renter.payment_revision (renter.Revision c) amount)))))).
  { intros P e HP. cbn. split; [split; [discriminate | intros H; destruct (HP H)] |].
    split; [reflexivity | discriminate]. }
  destruct (N.ltb_spec (renter.Value (renter.ValidRenterOutput (renter.Revision c))) amount)
    as [Hv|Hv]; [apply Hfail; lia|].
  destruct (N.ltb_spec (renter.Value (renter.MissedRenterOutput (renter.Revision c))) amount)
    as [Hm|Hm]; [apply Hfail; lia|].
  destruct (renter.TipContext s) as [vc [e|]] eqn:Htip; cbn [fst snd] in *;
    [apply Hfail; intros (_ & _ & H & _); discriminate H|].
  match goal with
  | |- context [renter.WriteRequest s ?q] =>
    set (req := q) in *; destruct (renter.WriteRequest s req) as [e|] eqn:Hw
  end; [apply Hfail; intros (_ & _ & _ & H & _); discriminate H|].
  destruct (renter.ReadResponse s req) as [resp [e|]] eqn:Hr; cbn [fst snd] in *;
    [apply Hfail; intros (_ & _ & _ & _ & H & _); discriminate H|].
  destruct (renter.VerifyHash s (renter.hostKey payment) _ (renter.RespSignature resp))
    eqn:Hver; cbn [negb];
    [|apply Hfail; intros (_ & _ & _ & _ & _ & H); discriminate H].
  cbn [fst snd]. split; [split; [intros _; repeat split; assumption | reflexivity]|].
  split; [intros H; destruct (H eq_refl) | reflexivity].
Qed.

(** ** Renewal: the admission gate (C7) *)

(** C7: [renewAllowed] fails with [ErrNotAcceptingContracts] exactly when
    the host is not accepting contracts; when it is, it fails with
    [ErrLateRevision] exactly when
    [windowStart <= currentHeight + revisionSubmissionBuffer] and passes
    otherwise; a window start of exactly the current height plus the buffer
    fails with [ErrLateRevision], one more passes. *)
Theorem C7_renewAllowed_cases (revisionSubmissionBuffer : types.BlockHeight)
    (acceptingNewContracts : bool) (currentHeight windowStart : types.BlockHeight) :
  let r := host.renewAllowed revisionSubmissionBuffer acceptingNewContracts
             currentHeight windowStart in
  (r = Some host.ErrNotAcceptingContracts <-> acceptingNewContracts = false) /\
  (r = Some host.ErrLateRevision <->
     acceptingNewContracts = true /\
     windowStart <= currentHeight + revisionSubmissionBuffer) /\
  (r = None <->
     acceptingNewContracts = true /\
     currentHeight + revisionSubmissionBuffer < windowStart) /\
  host.renewAllowed revisionSubmissionBuffer true currentHeight
    (currentHeight + revisionSubmissionBuffer) = Some host.ErrLateRevision /\
  host.renewAllowed revisionSubmissionBuffer true currentHeight
    (currentHeight + revisionSubmissionBuffer + 1) = None.
Proof.
  cbn zeta. unfold host.renewAllowed.
  destruct acceptingNewContracts; cbn [negb];
    repeat match goal with
    | |- context [N.leb ?a ?b] => destruct (N.leb_spec a b)
    end;
    repeat split; intros; try discriminate; try congruence; try lia;
    repeat match goal with H : _ /\ _ |- _ => destruct H end;
    try discriminate; try lia.
Qed.

(** The three calls of TestAcceptRenewal, for any submission buffer. *)
Example TestAcceptRenewal (revisionSubmissionBuffer : types.BlockHeight) :
  host.renewAllowed revisionSubmissionBuffer true 0 (revisionSubmissionBuffer + 1)
    = None /\
  host.renewAllowed revisionSubmissionBuffer false 0 (revisionSubmissionBuffer + 1)
    = Some host.ErrNotAcceptingContracts /\
  host.renewAllowed revisionSubmissionBuffer true 0 revisionSubmissionBuffer
    = Some host.ErrLateRevision.
Proof.
  unfold host.renewAllowed. cbn [negb]. rewrite N.add_0_l.
  rewrite (proj2 (N.leb_gt _ _)) by lia.
  rewrite (proj2 (N.leb_le _ _)) by lia.
  repeat split.
Qed.

(** ** Renewal: the collateral gates (C8) *)

(** C8: for a renewal that passes the size, window and output-shape gates
    and whose collateral is computed as [expectedCollateral],
    [verifyRenewedContract] fails with [errMaxCollateralReached] exactly when
    [expectedCollateral] exceeds the host's [MaxCollateral] (so it does with
    [MaxCollateral = expectedCollateral - 1] and does not with
    [MaxCollateral = expectedCollateral]); when it does not exceed it and
    [lockedCollateral + expectedCollateral] exceeds the [CollateralBudget],
    it fails with [errCollateralBudgetExceeded]. *)
Theorem C8_collateral_gates
    (revisionSubmissionBuffer : types.BlockHeight)
    (RenewBaseCosts :
       types.FileContractRevision -> host.HostExternalSettings -> Currency.t ->
       types.BlockHeight -> Currency.t * Currency.t)
    (renewContractCollateral :
       types.FileContractRevision -> host.HostExternalSettings -> Currency.t ->
       types.FileContract -> Currency.t * option error)
    (multisigUnlockHash : types.SiaPublicKey -> types.SiaPublicKey -> types.UnlockHash)
    (so : host.storageObligation) (fc : types.FileContract)
    (oldRevision : types.FileContractRevision) (blockHeight : types.BlockHeight)
    (hi : host.HostInternalSettings) (es : host.HostExternalSettings)
    (rpcCost : Currency.t) (renterPK hostPK : types.SiaPublicKey)
    (lockedCollateral expectedCollateral : Currency.t) :
  host.shape_gates revisionSubmissionBuffer multisigUnlockHash
    so fc blockHeight es renterPK hostPK = None ->
  renewContractCollateral oldRevision es rpcCost fc = (expectedCollateral, None) ->
  let r := host.verifyRenewedContract revisionSubmissionBuffer RenewBaseCosts
             renewContractCollateral multisigUnlockHash so fc oldRevision
             blockHeight hi es rpcCost renterPK hostPK lockedCollateral in
  (r = Some host.errMaxCollateralReached <->
     host.MaxCollateral es < expectedCollateral) /\
  (0 < expectedCollateral -> host.MaxCollateral es = expectedCollateral - 1 ->
     r = Some host.errMaxCollateralReached) /\
  (host.MaxCollateral es = expectedCollateral ->
     r <> Some host.errMaxCollateralReached) /\
  (expectedCollateral <= host.MaxCollateral es ->
   host.CollateralBudget hi < lockedCollateral + expectedCollateral ->
     r = Some host.errCollateralBudgetExceeded).
Proof.
  intros Hshape Hcol. cbn zeta. unfold host.verifyRenewedContract.
  rewrite Hshape, Hcol.
  destruct (RenewBaseCosts oldRevision es rpcCost (types.WindowStart fc))
    as [basePrice baseCollateral].
  unfold host.collateral_gates, Currency.Add. rewrite !Cmp_pos.
  destruct (N.ltb_spec (host.MaxCollateral es) expectedCollateral) as [Hmax|Hmax].
  - repeat split; intros; try reflexivity; try assumption; lia.
  - destruct (N.ltb_spec (host.CollateralBudget hi) (lockedCollateral + expectedCollateral))
      as [Hb|Hb].
    + repeat split; intros; try discriminate; try reflexivity; lia.
    + assert (Hne : host.value_gates fc es basePrice baseCollateral
                    <> Some host.errMaxCollateralReached).
      { unfold host.value_gates.
        repeat match goal with
        | |- context [if ?b then _ else _] => destruct b
        end; discriminate. }
      split; [split; [intros H; destruct (Hne H) | lia]|].
      split; [lia|]. split; [intros _; exact Hne|]. lia.
Qed.

Lemma C8_collateral_gates_witness :
  let r maxCollateral budget locked :=
    host.verifyRenewedContract sample_buffer sample_RenewBaseCosts
      sample_renewContractCollateral sample_multisig sample_obligation
      sample_contract (sample_revision 7 [10; 20] [10; 19; 5]) 0
      (host.mkHostInternalSettings budget) (sample_settings maxCollateral) 1
      sample_renter_key sample_host_key locked in
  r 16 100 0 = Some host.errMaxCollateralReached /\
  r 17 100 0 <> Some host.errMaxCollateralReached /\
  r 17 100 84 = Some host.errCollateralBudgetExceeded.
Proof.
  cbn zeta.
  pose proof (C8_collateral_gates sample_buffer sample_RenewBaseCosts
                sample_renewContractCollateral sample_multisig sample_obligation
                sample_contract (sample_revision 7 [10; 20] [10; 19; 5]) 0
                (host.mkHostInternalSettings 100) (sample_settings 16) 1
                sample_renter_key sample_host_key 0 17 eq_refl eq_refl) as H16.
  pose proof (C8_collateral_gates sample_buffer sample_RenewBaseCosts
                sample_renewContractCollateral sample_multisig sample_obligation
                sample_contract (sample_revision 7 [10; 20] [10; 19; 5]) 0
                (host.mkHostInternalSettings 100) (sample_settings 17) 1
                sample_renter_key sample_host_key 0 17 eq_refl eq_refl) as H17.
  pose proof (C8_collateral_gates sample_buffer sample_RenewBaseCosts
                sample_renewContractCollateral sample_multisig sample_obligation
                sample_contract (sample_revision 7 [10; 20] [10; 19; 5]) 0
                (host.mkHostInternalSettings 100) (sample_settings 17) 1
                sample_renter_key sample_host_key 84 17 eq_refl eq_refl) as H84.
  cbn zeta in H16, H17, H84.
  destruct H16 as (_ & H16 & _). destruct H17 as (_ & _ & H17 & _).
  destruct H84 as (_ & _ & _ & H84).
  split; [apply H16; [lia | reflexivity]|].
  split; [apply H17; reflexivity|].
  apply H84; cbn; lia.
Defined.

(** ** Account ids: serialization (C10) *)





(** * Further properties of the code *)

(** ** [PaymentRevision]: errors, panics, shape and composition *)

(** A successful [PaymentRevision], inverted. *)
Lemma PaymentRevision_success_inv (fcr rev : types.FileContractRevision)
    (amount : Currency.t) :
  types.PaymentRevision fcr amount = Returns (rev, None) ->
  exists v0 v1 vs m0 m1 m2 ms,
    types.NewValidProofOutputs fcr = v0 :: v1 :: vs /\
    types.NewMissedProofOutputs fcr = m0 :: m1 :: m2 :: ms /\
    amount <= types.Value v0 /\ amount <= types.Value m0 /\
    rev = types.with_outputs fcr (uint64_incr (types.NewRevisionNumber fcr))
            [types.set_Value (types.Value v0 - amount) v0;
             types.set_Value (types.Value v1 + amount) v1]
            [types.set_Value (types.Value m0 - amount) m0;
             m1;
             types.set_Value (types.Value m2 + amount) m2].
Proof.
  intros H.
  destruct (types.NewValidProofOutputs fcr) as [|v0 vs0] eqn:Ev.
  { unfold types.PaymentRevision in H. rewrite Ev in H. discriminate H. }
  destruct (types.NewMissedProofOutputs fcr) as [|m0 ms0] eqn:Em.
  { unfold types.PaymentRevision in H. rewrite Ev, Em in H.
    cbn [lookup list_lookup] in H.
    destruct (Currency.Cmp (types.Value v0) amount <? 0)%Z; discriminate H. }
  destruct (N.ltb_spec (types.Value v0) amount) as [Hv|Hv].
  { unfold types.PaymentRevision in H. rewrite Ev, Em in H.
    cbn [lookup list_lookup] in H. rewrite Cmp_neg in H.
    rewrite (proj2 (N.ltb_lt _ _) Hv) in H. discriminate H. }
  destruct (N.ltb_spec (types.Value m0) amount) as [Hm|Hm].
  { unfold types.PaymentRevision in H. rewrite Ev, Em in H.
    cbn [lookup list_lookup] in H. rewrite !Cmp_neg in H.
    rewrite (proj2 (N.ltb_ge _ _) Hv), (proj2 (N.ltb_lt _ _) Hm) in H.
    discriminate H. }
  destruct vs0 as [|v1 vs].
  { unfold types.PaymentRevision in H. rewrite Ev, Em in H.
    cbn [lookup list_lookup] in H. rewrite !Cmp_neg in H.
    rewrite (proj2 (N.ltb_ge _ _) Hv), (proj2 (N.ltb_ge _ _) Hm) in H.
    discriminate H. }
  destruct ms0 as [|m1 [|m2 ms]].
  1, 2: unfold types.PaymentRevision in H; rewrite Ev, Em in H;
    cbn [lookup list_lookup] in H; rewrite !Cmp_neg in H;
    rewrite (proj2 (N.ltb_ge _ _) Hv), (proj2 (N.ltb_ge _ _) Hm) in H;
    discriminate H.
  rewrite (PaymentRevision_ok fcr amount v0 v1 vs m0 m1 m2 ms Ev Em Hv Hm) in H.
  injection H as <-.
  exists v0, v1, vs, m0, m1, m2, ms. repeat split; assumption.
Qed.

Ltac payment_cases fcr amount :=
  unfold types.PaymentRevision;
  destruct (types.NewValidProofOutputs fcr) as [|?v0 [|?v1 ?vs]];
  destruct (types.NewMissedProofOutputs fcr) as [|?m0 [|?m1 [|?m2 ?ms]]];
  cbn [lookup list_lookup length types.value_at from_option];
  rewrite ?Cmp_neg;
  repeat match goal with
  | |- context [N.ltb ?a ?b] => destruct (N.ltb_spec a b)
  end.

(** X1: [PaymentRevision] returns the zero revision and an error containing
    [ErrRevisionCostTooHigh] exactly when the revision has a renter
    valid-proof output below [amount], or has one that covers [amount] and a
    renter missed-proof output below [amount]. *)
Theorem PaymentRevision_cost_too_high (fcr : types.FileContractRevision)
    (amount : Currency.t) :
  (exists e,
     types.PaymentRevision fcr amount = Returns (types.zeroRevision, Some e) /\
     Contains e types.ErrRevisionCostTooHigh = true) <->
  (0 < length (types.NewValidProofOutputs fcr))%nat /\
  (types.value_at (types.NewValidProofOutputs fcr) 0 < amount \/
   (0 < length (types.NewMissedProofOutputs fcr))%nat /\
   types.value_at (types.NewMissedProofOutputs fcr) 0 < amount).
Proof.
  payment_cases fcr amount;
    (split;
     [ intros (e & He & _); try discriminate He;
       (split; [cbn; lia|]);
       first [left; assumption | right; (split; [cbn; lia | assumption])]
     | intros (Hl & [Hv | (Hl' & Hm)]); cbn in Hl; try lia; try (cbn in Hl'; lia);
       eexists; (split; [reflexivity|]); cbn; reflexivity ]).
Qed.

(** X2: [PaymentRevision] panics exactly when the revision has no
    valid-proof output, or the renter's valid-proof output covers [amount]
    and there is no missed-proof output, or both renter outputs cover
    [amount] and there are fewer than 2 valid-proof or fewer than 3
    missed-proof outputs. *)
Theorem PaymentRevision_panics (fcr : types.FileContractRevision)
    (amount : Currency.t) :
  (exists msg, types.PaymentRevision fcr amount = Panics msg) <->
  length (types.NewValidProofOutputs fcr) = 0%nat \/
  amount <= types.value_at (types.NewValidProofOutputs fcr) 0 /\
  (length (types.NewMissedProofOutputs fcr) = 0%nat \/
   amount <= types.value_at (types.NewMissedProofOutputs fcr) 0 /\
   ((length (types.NewValidProofOutputs fcr) < 2)%nat \/
    (length (types.NewMissedProofOutputs fcr) < 3)%nat)).
Proof.
  payment_cases fcr amount;
    (split;
     [ intros (msg & Hm); try discriminate Hm;
       first [ left; reflexivity
             | right; (split; [assumption|]); left; reflexivity
             | right; (split; [assumption|]); right; (split; [assumption|]);
               cbn; lia ]
     | intros [Hl | (Hv & [Hl | (Hm & [Hl | Hl])])];
       cbn in *; try discriminate Hl; try lia; eexists; reflexivity ]).
Qed.

(** X3: a revision returned by [PaymentRevision] has exactly 2 valid-proof
    and 3 missed-proof outputs, owned by the unlock hashes of the first 2 and
    3 outputs of the input, and agrees with the input on the parent id, the
    unlock conditions, the file size and Merkle root, the window and the
    unlock hash. *)
Theorem PaymentRevision_frame (fcr rev : types.FileContractRevision)
    (amount : Currency.t) :
  types.PaymentRevision fcr amount = Returns (rev, None) ->
  length (types.NewValidProofOutputs rev) = 2%nat /\
  length (types.NewMissedProofOutputs rev) = 3%nat /\
  map types.OutUnlockHash (types.NewValidProofOutputs rev)
    = take 2 (map types.OutUnlockHash (types.NewValidProofOutputs fcr)) /\
  map types.OutUnlockHash (types.NewMissedProofOutputs rev)
    = take 3 (map types.OutUnlockHash (types.NewMissedProofOutputs fcr)) /\
  types.ParentID rev = types.ParentID fcr /\
  types.UnlockConditions rev = types.UnlockConditions fcr /\
  types.NewFileSize rev = types.NewFileSize fcr /\
  types.NewFileMerkleRoot rev = types.NewFileMerkleRoot fcr /\
  types.NewWindowStart rev = types.NewWindowStart fcr /\
  types.NewWindowEnd rev = types.NewWindowEnd fcr /\
  types.NewUnlockHash rev = types.NewUnlockHash fcr.
Proof.
  intros H.
  destruct (PaymentRevision_success_inv _ _ _ H)
    as (v0 & v1 & vs & m0 & m1 & m2 & ms & Ev & Em & _ & _ & ->).
  rewrite Ev, Em. cbn. repeat split; reflexivity.
Qed.

Lemma PaymentRevision_frame_witness :
  let fcr := sample_revision 7 [10; 5; 7] [10; 5; 0; 4] in
  exists rev,
    types.PaymentRevision fcr 3 = Returns (rev, None) /\
    length (types.NewValidProofOutputs rev) = 2%nat /\
    length (types.NewMissedProofOutputs rev) = 3%nat.
Proof.
  cbn zeta. eexists. split; [reflexivity|].
  pose proof (PaymentRevision_frame
                (sample_revision 7 [10; 5; 7] [10; 5; 0; 4]) _ 3 eq_refl)
    as (H2 & H3 & _).
  split; [exact H2 | exact H3].
Defined.

(** X4: two payments in a row amount to one payment of the sum: if paying
    [a] and then [b] both succeed, paying [a + b] at once succeeds with the
    same valid-proof and missed-proof outputs, and the revision number after
    the two payments is one increment further. *)
Theorem PaymentRevision_compose (fcr r1 r2 : types.FileContractRevision)
    (a b : Currency.t) :
  types.PaymentRevision fcr a = Returns (r1, None) ->
  types.PaymentRevision r1 b = Returns (r2, None) ->
  exists r,
    types.PaymentRevision fcr (a + b) = Returns (r, None) /\
    types.NewValidProofOutputs r2 = types.NewValidProofOutputs r /\
    types.NewMissedProofOutputs r2 = types.NewMissedProofOutputs r /\
    types.NewRevisionNumber r2 = uint64_incr (types.NewRevisionNumber r).
Proof.
  intros H1 H2.
  destruct (PaymentRevision_success_inv _ _ _ H1)
    as (v0 & v1 & vs & m0 & m1 & m2 & ms & Ev & Em & Hv & Hm & ->).
  destruct (PaymentRevision_success_inv _ _ _ H2)
    as (w0 & w1 & ws & n0 & n1 & n2 & ns & Ew & En & Hw & Hn & ->).
  cbn in Ew, En.
  injection Ew as <- <- <-. injection En as <- <- <- <-.
  cbn in Hw, Hn.
  assert (Hva : a + b <= types.Value v0) by lia.
  assert (Hma : a + b <= types.Value m0) by lia.
  eexists. split.
  - apply (PaymentRevision_ok fcr (a + b) v0 v1 vs m0 m1 m2 ms Ev Em Hva Hma).
  - cbn. unfold types.set_Value. cbn.
    rewrite <- !N.sub_add_distr, <- !N.add_assoc.
    repeat split; reflexivity.
Qed.

Lemma PaymentRevision_compose_witness :
  let fcr := sample_revision 7 [10; 5] [10; 5; 0] in
  exists r1 r2 r,
    types.PaymentRevision fcr 3 = Returns (r1, None) /\
    types.PaymentRevision r1 4 = Returns (r2, None) /\
    types.PaymentRevision fcr (3 + 4) = Returns (r, None) /\
    types.NewValidProofOutputs r2 = types.NewValidProofOutputs r /\
    types.NewMissedProofOutputs r2 = types.NewMissedProofOutputs r /\
    types.NewRevisionNumber r2 = uint64_incr (types.NewRevisionNumber r).
Proof.
  cbn zeta. eexists. eexists.
  destruct (PaymentRevision_compose
              (sample_revision 7 [10; 5] [10; 5; 0]) _ _ 3 4 eq_refl eq_refl)
    as (r & Hr).
  exists r. split; [reflexivity|]. split; [reflexivity|]. exact Hr.
Defined.

(** X5: after a successful payment the renter's funds ([RenterFunds]) are
    the old funds less [amount], which they covered, and the contract id and
    the end height are the same. *)
Theorem PaymentRevision_RenterFunds (fcr rev : types.FileContractRevision)
    (amount : Currency.t) :
  types.PaymentRevision fcr amount = Returns (rev, None) ->
  exists funds,
    types.RenterFunds fcr = Returns funds /\
    amount <= funds /\
    types.RenterFunds rev = Returns (funds - amount) /\
    types.ID rev = types.ID fcr /\
    types.EndHeight rev = types.EndHeight fcr.
Proof.
  intros H.
  destruct (PaymentRevision_success_inv _ _ _ H)
    as (v0 & v1 & vs & m0 & m1 & m2 & ms & Ev & Em & Hv & _ & ->).
  exists (types.Value v0). unfold types.RenterFunds. rewrite Ev. cbn.
  repeat split; try reflexivity. exact Hv.
Qed.

Lemma PaymentRevision_RenterFunds_witness :
  let fcr := sample_revision 7 [10; 5] [10; 5; 0] in
  exists rev funds,
    types.PaymentRevision fcr 3 = Returns (rev, None) /\
    types.RenterFunds fcr = Returns funds /\
    types.RenterFunds rev = Returns (funds - 3).
Proof.
  cbn zeta. eexists.
  destruct (PaymentRevision_RenterFunds
              (sample_revision 7 [10; 5] [10; 5; 0]) _ 3 eq_refl)
    as (funds & Hf & _ & Hr & _).
  exists funds. split; [reflexivity|]. split; [exact Hf | exact Hr].
Defined.

(** ** Account ids and withdrawal messages: further behaviour *)

(** [SPK], evaluated. *)
Lemma SPK_eval (X : modules.Externals) (aid : modules.AccountID) :
  modules.SPK X aid =
  if modules.IsZeroAccount aid && modules.DEBUG X
  then ([modules.EvCritical "should never use the zero account"],
        Panics "should never use the zero account")
  else
    let '(spk, err) := modules.spk_LoadString X aid in
    ((if modules.IsZeroAccount aid
      then [modules.EvCritical "should never use the zero account"] else [])
     ++ modules.EvLoadString aid
     :: match err with
        | Some _ =>
          [modules.EvCritical
             "account id should never fail to be loaded as a SiaPublicKey"]
        | None => []
        end,
     match err with
     | Some _ =>
       if modules.DEBUG X
       then Panics "account id should never fail to be loaded as a SiaPublicKey"
       else Returns spk
     | None => Returns spk
     end).
Proof.
  unfold modules.SPK, modules.load_spk, modules.Critical.
  destruct (modules.IsZeroAccount aid), (modules.DEBUG X) eqn:Hd; cbn;
    try reflexivity;
    destruct (modules.spk_LoadString X aid) as [spk [e|]]; cbn;
    rewrite ?Hd; reflexivity.
Qed.

(** [PK] on an account id that is not the zero account and loads, without
    error, to a key of full size. *)
Lemma PK_loaded (X : modules.Externals) (aid : modules.AccountID)
    (spk : types.SiaPublicKey) :
  modules.IsZeroAccount aid = false ->
  modules.spk_LoadString X aid = (spk, None) ->
  modules.PK X aid =
    ([modules.EvLoadString aid],
     if negb (length (types.Key spk) =? modules.PublicKeySize X)%nat
     then Panics "key len mismatch between crypto.Publickey and types.SiaPublicKey"
     else Returns (types.Key spk)).
Proof.
  intros Hz Hl. unfold modules.PK. rewrite SPK_eval, Hz, Hl. cbn.
  destruct (length (types.Key spk) =? modules.PublicKeySize X)%nat; reflexivity.
Qed.

(** X6: on a message whose account is not the zero account and loads,
    without error, to a key of full size, [ValidateSignature] reports no
    critical error, verifies the signature once, under exactly that key, and
    returns no error exactly when [crypto.VerifyHash] accepts; otherwise the
    error it returns contains both the verification error and
    [ErrWithdrawalInvalidSignature]. *)
Theorem ValidateSignature_loaded_account (X : modules.Externals)
    (wm : modules.WithdrawalMessage) (spk : types.SiaPublicKey)
    (hash : types.Hash) (sig : modules.Signature) :
  modules.IsZeroAccount (modules.Account wm) = false ->
  modules.spk_LoadString X (modules.Account wm) = (spk, None) ->
  length (types.Key spk) = modules.PublicKeySize X ->
  let m := modules.ValidateSignature X wm hash sig in
  modules.trace m
    = [modules.EvLoadString (modules.Account wm);
       modules.EvVerifyHash hash (types.Key spk) sig] /\
  (modules.returned m = Returns None <->
     modules.VerifyHash X hash (types.Key spk) sig = None) /\
  (forall err, modules.VerifyHash X hash (types.Key spk) sig = Some err ->
     exists e, modules.returned m = Returns (Some e) /\
       Contains e err = true /\
       Contains e modules.ErrWithdrawalInvalidSignature = true).
Proof.
  intros Hz Hl Hlen. cbn zeta. unfold modules.ValidateSignature.
  rewrite (PK_loaded X _ spk Hz Hl), Hlen, Nat.eqb_refl. cbn.
  destruct (modules.VerifyHash X hash (types.Key spk) sig) as [err|]; cbn.
  - split; [reflexivity|]. split; [split; discriminate|].
    intros err' [= <-]. eexists. split; [reflexivity|]. split.
    + cbn. rewrite Contains_refl. apply orb_true_r.
    + apply Contains_extend_r, Contains_refl.
  - split; [reflexivity|]. split; [split; reflexivity|]. discriminate.
Qed.

Lemma ValidateSignature_loaded_account_witness :
  let X := sample_externals in
  let wm := modules.mkWithdrawalMessage (modules.FromSPK X sample_key) 10 1 [] in
  let hash := ["001"%byte] in
  let good := hash ++ types.Key sample_key in
  modules.returned (modules.ValidateSignature X wm hash good) = Returns None /\
  exists e, modules.returned (modules.ValidateSignature X wm hash []) = Returns (Some e) /\
    Contains e modules.ErrWithdrawalInvalidSignature = true.
Proof.
  cbn zeta. split.
  - apply (ValidateSignature_loaded_account sample_externals
             (modules.mkWithdrawalMessage
                (modules.FromSPK sample_externals sample_key) 10 1 [])
             sample_key ["001"%byte] (["001"%byte] ++ types.Key sample_key)
             eq_refl eq_refl eq_refl).
    reflexivity.
  - destruct (ValidateSignature_loaded_account sample_externals
                (modules.mkWithdrawalMessage
                   (modules.FromSPK sample_externals sample_key) 10 1 [])
                sample_key ["001"%byte] [] eq_refl eq_refl eq_refl)
      as (_ & _ & H).
    destruct (H (ErrNew "invalid signature") eq_refl) as (e & He & _ & Hc).
    exists e. split; assumption.
Defined.

(** X7: on such a message, [Validate] returns no error exactly when the
    current height is not above the expiry, the expiry is not above the
    maximum future expiry and [crypto.VerifyHash] accepts the signature under
    the account's key. *)
Theorem Validate_accepts_iff (X : modules.Externals)
    (wm : modules.WithdrawalMessage) (spk : types.SiaPublicKey)
    (blockHeight expiry : types.BlockHeight)
    (hash : types.Hash) (sig : modules.Signature) :
  modules.IsZeroAccount (modules.Account wm) = false ->
  modules.spk_LoadString X (modules.Account wm) = (spk, None) ->
  length (types.Key spk) = modules.PublicKeySize X ->
  modules.returned (modules.Validate X wm blockHeight expiry hash sig) = Returns None <->
  blockHeight <= modules.Expiry wm /\ modules.Expiry wm <= expiry /\
  modules.VerifyHash X hash (types.Key spk) sig = None.
Proof.
  intros Hz Hl Hlen. rewrite Validate_unfold. unfold modules.returned at 1. cbn [snd].
  rewrite ValidateSignature_returned.
  rewrite (PK_loaded X _ spk Hz Hl), Hlen, Nat.eqb_refl. cbn.
  unfold modules.ValidateExpiry.
  destruct (N.ltb_spec (modules.Expiry wm) blockHeight) as [Ha|Ha];
    destruct (N.ltb_spec expiry (modules.Expiry wm)) as [Hb|Hb];
    destruct (modules.VerifyHash X hash (types.Key spk) sig); cbn;
    split; intros H; try discriminate H;
    try (destruct H as (? & ? & H); try discriminate H; lia);
    repeat split; assumption || reflexivity.
Qed.

Lemma Validate_accepts_iff_witness :
  let X := sample_externals in
  let wm := modules.mkWithdrawalMessage (modules.FromSPK X sample_key) 10 1 [] in
  let hash := ["001"%byte] in
  modules.returned (modules.Validate X wm 10 20 hash (hash ++ types.Key sample_key))
    = Returns None.
Proof.
  cbn zeta.
  apply (Validate_accepts_iff sample_externals
           (modules.mkWithdrawalMessage
              (modules.FromSPK sample_externals sample_key) 10 1 [])
           sample_key 10 20 ["001"%byte] (["001"%byte] ++ types.Key sample_key)
           eq_refl eq_refl eq_refl).
  split; [vm_compute; discriminate|].
  split; [vm_compute; discriminate | reflexivity].
Defined.

(** X8: [SPK] reports a critical error exactly when the account is the zero
    account or does not load as a public key, and it panics exactly when, in
    addition, the build is a debug build. *)
Theorem SPK_critical_iff (X : modules.Externals) (aid : modules.AccountID) :
  ((exists msg, modules.EvCritical msg ∈ modules.trace (modules.SPK X aid)) <->
     aid = modules.ZeroAccountID \/ snd (modules.spk_LoadString X aid) <> None) /\
  ((exists msg, modules.returned (modules.SPK X aid) = Panics msg) <->
     modules.DEBUG X = true /\
     (aid = modules.ZeroAccountID \/ snd (modules.spk_LoadString X aid) <> None)).
Proof.
  rewrite SPK_eval. unfold modules.IsZeroAccount, modules.ZeroAccountID.
  destruct (String.eqb_spec aid "") as [Hz|Hz];
    destruct (modules.DEBUG X);
    destruct (modules.spk_LoadString X aid) as [spk [e|]];
    cbn [andb app snd modules.trace modules.returned fst];
    (split; split;
     [ intros (msg & Hin);
       repeat (apply elem_of_cons in Hin; destruct Hin as [Hin|Hin];
               [try discriminate Hin|]);
       try (apply elem_of_nil in Hin; destruct Hin);
       first [left; assumption | right; discriminate]
     | intros [H|H]; try contradiction;
       eexists; first [apply list_elem_of_here | apply list_elem_of_further, list_elem_of_here
                      | apply list_elem_of_further, list_elem_of_further, list_elem_of_here]
     | intros (msg & Hp); try discriminate Hp;
       (split; [reflexivity|]);
       first [left; assumption | right; discriminate]
     | intros (Hd & [H|H]); try discriminate Hd; try contradiction;
       eexists; reflexivity ]).
Qed.

(** X9: on a message whose account is not the zero account and loads,
    without error, to a key that is not of full size, [ValidateSignature] and
    [Validate] panic on the key length and never reach the signature
    verification. *)
Theorem ValidateSignature_short_key_panics (X : modules.Externals)
    (wm : modules.WithdrawalMessage) (spk : types.SiaPublicKey)
    (blockHeight expiry : types.BlockHeight)
    (hash : types.Hash) (sig : modules.Signature) :
  modules.IsZeroAccount (modules.Account wm) = false ->
  modules.spk_LoadString X (modules.Account wm) = (spk, None) ->
  length (types.Key spk) <> modules.PublicKeySize X ->
  modules.ValidateSignature X wm hash sig
    = ([modules.EvLoadString (modules.Account wm)],
       Panics "key len mismatch between crypto.Publickey and types.SiaPublicKey") /\
  modules.Validate X wm blockHeight expiry hash sig
    = ([modules.EvLoadString (modules.Account wm)],
       Panics "key len mismatch between crypto.Publickey and types.SiaPublicKey").
Proof.
  intros Hz Hl Hlen.
  assert (Hs : modules.ValidateSignature X wm hash sig
    = ([modules.EvLoadString (modules.Account wm)],
       Panics "key len mismatch between crypto.Publickey and types.SiaPublicKey")).
  { unfold modules.ValidateSignature. rewrite (PK_loaded X _ spk Hz Hl).
    destruct (Nat.eqb_spec (length (types.Key spk)) (modules.PublicKeySize X))
      as [Heq|_]; [destruct (Hlen Heq)|]. reflexivity. }
  split; [exact Hs|]. rewrite Validate_unfold, Hs. reflexivity.
Qed.

Lemma ValidateSignature_short_key_panics_witness :
  let X := sample_externals in
  let wm := modules.mkWithdrawalMessage "ed25519:k" 10 1 [] in
  modules.returned (modules.ValidateSignature X wm [] [])
    = Panics "key len mismatch between crypto.Publickey and types.SiaPublicKey" /\
  modules.returned (modules.Validate X wm 5 20 [] [])
    = Panics "key len mismatch between crypto.Publickey and types.SiaPublicKey".
Proof.
  cbn zeta.
  destruct (ValidateSignature_short_key_panics sample_externals
              (modules.mkWithdrawalMessage "ed25519:k" 10 1 [])
              (fst (sample_spk_LoadString "ed25519:k")) 5 20 [] []
              eq_refl eq_refl ltac:(vm_compute; discriminate)) as (H1 & H2).
  rewrite H1, H2. split; reflexivity.
Defined.

(** X10: [UnmarshalSia] never panics and never reports a critical error;
    when the decoder reports an error that error is returned and no key is
    loaded; and whenever an error is returned the receiver is left as it
    was. *)
Theorem UnmarshalSia_total (X : modules.Externals)
    (aid : modules.AccountID) (r : list byte) :
  let m := modules.UnmarshalSia X aid r in
  (exists a e, modules.returned m = Returns (a, e) /\ (e <> None -> a = aid)) /\
  (forall msg, modules.EvCritical msg ∉ modules.trace m) /\
  (forall e, snd (modules.ReadPrefixedBytes X r) = Some e ->
     m = ([], Returns (aid, Some e))).
Proof.
  cbn zeta. unfold modules.UnmarshalSia, modules.LoadString, modules.load_spk.
  destruct (modules.ReadPrefixedBytes X r) as [idBytes [e|]]; cbn [snd].
  - split; [exists aid, (Some e); split; [reflexivity | reflexivity..]|].
    split; [intros msg Hin; apply elem_of_nil in Hin; exact Hin|].
    intros e' [= <-]. reflexivity.
  - destruct (length idBytes =? 0)%nat.
    + split; [exists modules.ZeroAccountID, None; split;
               [reflexivity | intros H; destruct (H eq_refl)]|].
      split; [intros msg Hin; apply elem_of_nil in Hin; exact Hin|].
      discriminate.
    + destruct (modules.spk_LoadString X (string_of_list_byte idBytes))
        as [spk [e|]]; cbn.
      * split; [eexists _, _; split; [reflexivity | reflexivity..]|].
        split; [|discriminate].
        intros msg Hin. apply list_elem_of_singleton in Hin. discriminate Hin.
      * split; [eexists _, _; split;
                 [reflexivity | intros H; destruct (H eq_refl)]|].
        split; [|discriminate].
        intros msg Hin. apply list_elem_of_singleton in Hin. discriminate Hin.
Qed.

(** X11: a withdrawal message that is expired at some height is expired at
    every later height, whatever the maximum future expiry given. *)
Theorem ValidateExpiry_expired_forever (wm : modules.WithdrawalMessage)
    (h h' e e' : types.BlockHeight) :
  h <= h' ->
  modules.ValidateExpiry wm h e = Some modules.ErrWithdrawalExpired ->
  modules.ValidateExpiry wm h' e' = Some modules.ErrWithdrawalExpired.
Proof.
  intros Hh. unfold modules.ValidateExpiry.
  repeat match goal with
  | |- context [N.ltb ?a ?b] => destruct (N.ltb_spec a b)
  end; intros H'; try discriminate H'; try reflexivity; lia.
Qed.

Lemma ValidateExpiry_expired_forever_witness :
  modules.ValidateExpiry (modules.mkWithdrawalMessage "" 10 1 []) 12 30
    = Some modules.ErrWithdrawalExpired.
Proof.
  exact (ValidateExpiry_expired_forever (modules.mkWithdrawalMessage "" 10 1 [])
           11 12 20 30 ltac:(vm_compute; discriminate) eq_refl).
Defined.

(** ** Pay-by-contract: further behaviour *)

(** The two ways [payByContract] ends: an error with the contract as it
    was, or, the renter outputs covering the amount, the updated revision
    with two signatures. *)
Lemma payByContract_cases {VC : Type} (s : renter.Session VC)
    (payment : renter.payByContract_t) (amount : Currency.t) :
  let c := renter.contract payment in
  (exists e, renter.payByContract s payment amount = (c, Some e)) \/
  (amount <= renter.Value (renter.ValidRenterOutput (renter.Revision c)) /\
   amount <= renter.Value (renter.MissedRenterOutput (renter.Revision c)) /\
   exists hsig rsig,
     renter.payByContract s payment amount
       = (renter.mkContract (renter.ID c)
            (renter.payment_revision (renter.Revision c) amount) hsig rsig,
          None)).
Proof.
  cbn zeta. unfold renter.payByContract. rewrite !Cmp_neg.
  destruct (N.ltb_spec
              (renter.Value (renter.ValidRenterOutput
                 (renter.Revision (renter.contract payment)))) amount) as [Hv|Hv];
    [left; eauto|].
  destruct (N.ltb_spec
              (renter.Value (renter.MissedRenterOutput
                 (renter.Revision (renter.contract payment)))) amount) as [Hm|Hm];
    [left; eauto|].
  destruct (renter.TipContext s) as [vc [e|]]; [left; eauto|].
  destruct (renter.WriteRequest s _) as [e|]; [left; eauto|].
  destruct (renter.ReadResponse s _) as [resp [e|]]; [left; eauto|].
  destruct (renter.VerifyHash s _ _ _); cbn [negb]; [|left; eauto].
  right. split; [exact Hv|]. split; [exact Hm|]. eauto.
Qed.

(** X12: whatever [payByContract] returns, the contract it leaves has the
    same id, the same output addresses and the same remaining revision
    fields, and the same total of the renter and host valid outputs and of
    the renter and host missed outputs: no outcome creates or destroys
    currency. *)
Theorem payByContract_conserves {VC : Type} (s : renter.Session VC)
    (payment : renter.payByContract_t) (amount : Currency.t) :
  let rev := renter.Revision (renter.contract payment) in
  let c' := fst (renter.payByContract s payment amount) in
  let rev' := renter.Revision c' in
  renter.ID c' = renter.ID (renter.contract payment) /\
  renter.Address (renter.ValidRenterOutput rev')
    = renter.Address (renter.ValidRenterOutput rev) /\
  renter.Address (renter.ValidHostOutput rev')
    = renter.Address (renter.ValidHostOutput rev) /\
  renter.Address (renter.MissedRenterOutput rev')
    = renter.Address (renter.MissedRenterOutput rev) /\
  renter.Address (renter.MissedHostOutput rev')
    = renter.Address (renter.MissedHostOutput rev) /\
  renter.Rest rev' = renter.Rest rev /\
  renter.Value (renter.ValidRenterOutput rev') + renter.Value (renter.ValidHostOutput rev')
    = renter.Value (renter.ValidRenterOutput rev)
      + renter.Value (renter.ValidHostOutput rev) /\
  renter.Value (renter.MissedRenterOutput rev') + renter.Value (renter.MissedHostOutput rev')
    = renter.Value (renter.MissedRenterOutput rev)
      + renter.Value (renter.MissedHostOutput rev).
Proof.
  cbn zeta.
  destruct (payByContract_cases s payment amount)
    as [(e & ->) | (Hv & Hm & hsig & rsig & ->)]; cbn.
  - repeat split; reflexivity.
  - unfold Currency.Sub, Currency.Add. repeat split; try reflexivity; lia.
Qed.

(** X13: two successful contract payments in a row, of [a] and then of [b]
    out of the contract the first one left, were covered together by the
    renter's outputs and leave the revision number two increments further
    (as a 64-bit word), the renter's valid and missed outputs [a + b]
    smaller and the host's [a + b] larger. *)
Theorem payByContract_twice {VC VC' : Type}
    (s : renter.Session VC) (s' : renter.Session VC')
    (payment : renter.payByContract_t) (a b : Currency.t) :
  let rev := renter.Revision (renter.contract payment) in
  let r1 := renter.payByContract s payment a in
  let payment' :=
    renter.mkPayByContract (fst r1) (renter.privkey payment)
      (renter.hostKey payment) (renter.refundAccountID payment) in
  let r2 := renter.payByContract s' payment' b in
  snd r1 = None ->
  snd r2 = None ->
  let rev2 := renter.Revision (fst r2) in
  a + b <= renter.Value (renter.ValidRenterOutput rev) /\
  a + b <= renter.Value (renter.MissedRenterOutput rev) /\
  renter.RevisionNumber rev2 = (renter.RevisionNumber rev + 2) mod 2 ^ 64 /\
  renter.Value (renter.ValidRenterOutput rev2)
    = renter.Value (renter.ValidRenterOutput rev) - (a + b) /\
  renter.Value (renter.MissedRenterOutput rev2)
    = renter.Value (renter.MissedRenterOutput rev) - (a + b) /\
  renter.Value (renter.ValidHostOutput rev2)
    = renter.Value (renter.ValidHostOutput rev) + (a + b) /\
  renter.Value (renter.MissedHostOutput rev2)
    = renter.Value (renter.MissedHostOutput rev) + (a + b).
Proof.
  cbn zeta.
  destruct (payByContract_cases s payment a)
    as [(e & ->) | (Hv & Hm & hsig & rsig & ->)]; cbn [fst snd];
    [discriminate|]. intros _.
  match goal with
  | |- context [renter.payByContract s' ?p b] =>
    destruct (payByContract_cases s' p b)
      as [(e & ->) | (Hv' & Hm' & hsig' & rsig' & ->)]
  end; cbn [fst snd]; [discriminate|]. intros _.
  cbn in Hv', Hm' |- *. unfold Currency.Sub, Currency.Add in *.
  repeat split; try lia.
  unfold uint64_incr, uint64_modulus.
  rewrite N.Div0.add_mod_idemp_l.
  f_equal. lia.
Qed.

Lemma payByContract_twice_witness :
  let s := renter.mkSession unit (tt, None) (fun _ _ => []) (fun _ _ => [])
             (fun _ _ _ => true) (fun _ => None)
             (fun _ => (renter.mkResponse [], None)) in
  let payment :=
    renter.mkPayByContract
      (renter.mkContract [] (sample_core_revision 7 10 5 10 5) [] []) [] [] [] in
  let r1 := renter.payByContract s payment 3 in
  let r2 := renter.payByContract s
              (renter.mkPayByContract (fst r1) [] [] []) 4 in
  renter.RevisionNumber (renter.Revision (fst r2)) = (7 + 2) mod 2 ^ 64 /\
  renter.Value (renter.ValidRenterOutput (renter.Revision (fst r2))) = 10 - (3 + 4) /\
  renter.Value (renter.ValidHostOutput (renter.Revision (fst r2))) = 5 + (3 + 4).
Proof.
  cbn zeta.
  pose proof (payByContract_twice
    (renter.mkSession unit (tt, None) (fun _ _ => []) (fun _ _ => [])
       (fun _ _ _ => true) (fun _ => None)
       (fun _ => (renter.mkResponse [], None)))
    (renter.mkSession unit (tt, None) (fun _ _ => []) (fun _ _ => [])
       (fun _ _ _ => true) (fun _ => None)
       (fun _ => (renter.mkResponse [], None)))
    (renter.mkPayByContract
       (renter.mkContract [] (sample_core_revision 7 10 5 10 5) [] []) [] [] [])
    3 4 eq_refl eq_refl) as (_ & _ & Hn & Hvr & _ & Hvh & _).
  split; [exact Hn|]. split; [exact Hvr | exact Hvh].
Defined.

(** ** Consensus diffs *)

Section CommitEntries.
Context {D V : Type}.
Variables (DEBUG : bool) (msg_new msg_old : string).
Variables (new : D -> bool) (id : D -> N) (val : D -> V).

Local Abbreviation entries := (consensus.commit_entries DEBUG msg_new msg_old new id val).

Lemma adds_negb (b forward : bool) :
  consensus.adds b (negb forward) = negb (consensus.adds b forward).
Proof. destruct b, forward; reflexivity. Qed.

Lemma exists_in_insert_ne (m : gmap N V) (k k' : N) (v : V) :
  k <> k' -> consensus.exists_in (<[k := v]> m) k' = consensus.exists_in m k'.
Proof.
  intros Hne. unfold consensus.exists_in. rewrite lookup_insert_ne by exact Hne.
  reflexivity.
Qed.

Lemma exists_in_delete_ne (m : gmap N V) (k k' : N) :
  k <> k' -> consensus.exists_in (delete k m) k' = consensus.exists_in m k'.
Proof.
  intros Hne. unfold consensus.exists_in. rewrite lookup_delete_ne by exact Hne.
  reflexivity.
Qed.

(** Diffs leave the other keys alone. *)
Lemma entries_lookup_other (forward : bool) (ds : list D) (m m' : gmap N V) (k : N) :
  k ∉ map id ds ->
  entries forward ds m = Returns m' ->
  m' !! k = m !! k.
Proof.
  revert m. induction ds as [|d r IH]; intros m Hk H.
  - injection H as <-. reflexivity.
  - cbn in Hk. apply not_elem_of_cons in Hk as [Hne Hk].
    unfold consensus.commit_entries in H. cbn [consensus.for_range] in H.
    unfold consensus.commit_entry in H.
    destruct (consensus.adds (new d) forward).
    + destruct (DEBUG && consensus.exists_in m (id d)); [discriminate H|].
      rewrite (IH _ Hk H). apply lookup_insert_ne. congruence.
    + destruct (DEBUG && negb (consensus.exists_in m (id d))); [discriminate H|].
      rewrite (IH _ Hk H). apply lookup_delete_ne. congruence.
Qed.

(** A change at another key commutes with the diffs. *)
Lemma entries_insert_other (forward : bool) (ds : list D) (m : gmap N V)
    (k : N) (v : V) :
  k ∉ map id ds ->
  entries forward ds (<[k := v]> m)
    = consensus.omap_outcome (insert k v) (entries forward ds m).
Proof.
  revert m. induction ds as [|d r IH]; intros m Hk; [reflexivity|].
  cbn in Hk. apply not_elem_of_cons in Hk as [Hne Hk].
  unfold consensus.commit_entries. cbn [consensus.for_range].
  unfold consensus.commit_entry.
  rewrite exists_in_insert_ne by exact Hne.
  destruct (consensus.adds (new d) forward).
  - destruct (DEBUG && consensus.exists_in m (id d)); [reflexivity|].
    rewrite insert_insert_ne by congruence. apply (IH _ Hk).
  - destruct (DEBUG && negb (consensus.exists_in m (id d))); [reflexivity|].
    rewrite delete_insert_ne by congruence. apply (IH _ Hk).
Qed.

Lemma entries_delete_other (forward : bool) (ds : list D) (m : gmap N V) (k : N) :
  k ∉ map id ds ->
  entries forward ds (delete k m)
    = consensus.omap_outcome (delete k) (entries forward ds m).
Proof.
  revert m. induction ds as [|d r IH]; intros m Hk; [reflexivity|].
  cbn in Hk. apply not_elem_of_cons in Hk as [Hne Hk].
  unfold consensus.commit_entries. cbn [consensus.for_range].
  unfold consensus.commit_entry.
  rewrite exists_in_delete_ne by exact Hne.
  destruct (consensus.adds (new d) forward).
  - destruct (DEBUG && consensus.exists_in m (id d)); [reflexivity|].
    rewrite <- delete_insert_ne by congruence. apply (IH _ Hk).
  - destruct (DEBUG && negb (consensus.exists_in m (id d))); [reflexivity|].
    rewrite delete_delete. apply (IH _ Hk).
Qed.

Lemma fits_tail_insert (forward : bool) (d : D) (r : list D) (m : gmap N V) (v : V) :
  consensus.fits new id val forward (d :: r) m ->
  consensus.fits new id val forward r (<[id d := v]> m).
Proof.
  intros [Hnd Hall]. cbn in Hnd. apply NoDup_cons in Hnd as [Hnotin Hnd].
  apply Forall_cons in Hall as [_ Hall].
  split; [exact Hnd|].
  rewrite Forall_forall in Hall |- *. intros d' Hd'.
  rewrite lookup_insert_ne; [apply Hall, Hd'|].
  intros Heq. apply Hnotin. rewrite Heq. apply list_elem_of_fmap_2, Hd'.
Qed.

Lemma fits_tail_delete (forward : bool) (d : D) (r : list D) (m : gmap N V) :
  consensus.fits new id val forward (d :: r) m ->
  consensus.fits new id val forward r (delete (id d) m).
Proof.
  intros [Hnd Hall]. cbn in Hnd. apply NoDup_cons in Hnd as [Hnotin Hnd].
  apply Forall_cons in Hall as [_ Hall].
  split; [exact Hnd|].
  rewrite Forall_forall in Hall |- *. intros d' Hd'.
  rewrite lookup_delete_ne; [apply Hall, Hd'|].
  intros Heq. apply Hnotin. rewrite Heq. apply list_elem_of_fmap_2, Hd'.
Qed.

(** Diffs that fit apply without panic, and applying them in the opposite
    direction to the result gives the map back. *)
Lemma entries_round_trip (forward : bool) (ds : list D) (m : gmap N V) :
  consensus.fits new id val forward ds m ->
  exists m',
    entries forward ds m = Returns m' /\
    entries (negb forward) ds m' = Returns m.
Proof.
  revert m. induction ds as [|d r IH]; intros m Hfit.
  - exists m. split; reflexivity.
  - pose proof Hfit as [Hnd Hall]. cbn in Hnd.
    apply NoDup_cons in Hnd as [Hnotin _].
    apply Forall_cons in Hall as [Hd _].
    unfold consensus.commit_entries. cbn [consensus.for_range].
    unfold consensus.commit_entry at 1 3.
    rewrite adds_negb.
    destruct (consensus.adds (new d) forward) eqn:Hadd; cbn [negb].
    + unfold consensus.exists_in at 1. rewrite Hd, andb_false_r.
      destruct (IH _ (fits_tail_insert forward d r m (val d) Hfit)) as (m' & Hf & Hb).
      exists m'. split; [exact Hf|].
      pose proof (entries_lookup_other _ _ _ _ _ Hnotin Hf) as Hk.
      rewrite lookup_insert_eq in Hk.
      unfold consensus.exists_in. rewrite Hk. cbn [negb]. rewrite andb_false_r.
      fold (entries (negb forward) r (delete (id d) m')).
      rewrite (entries_delete_other _ _ _ _ Hnotin), Hb. cbn.
      rewrite delete_insert_id by exact Hd. reflexivity.
    + unfold consensus.exists_in at 1. rewrite Hd. cbn [negb]. rewrite andb_false_r.
      destruct (IH _ (fits_tail_delete forward d r m Hfit)) as (m' & Hf & Hb).
      exists m'. split; [exact Hf|].
      pose proof (entries_lookup_other _ _ _ _ _ Hnotin Hf) as Hk.
      rewrite lookup_delete_eq in Hk.
      unfold consensus.exists_in. rewrite Hk, andb_false_r.
      fold (entries (negb forward) r (<[id d := val d]> m')).
      rewrite (entries_insert_other _ _ _ _ _ Hnotin), Hb. cbn.
      rewrite insert_delete_id by exact Hd. reflexivity.
Qed.

End CommitEntries.

(** The three loops of [applyDiffSet], seen on the maps they change. *)
Lemma for_range_siacoin (DEBUG direction : bool)
    (ds : list consensus.SiacoinOutputDiff) (s : consensus.State) :
  consensus.for_range (fun scod => consensus.commitSiacoinOutputDiff DEBUG scod direction) ds s
  = consensus.omap_outcome (consensus.set_siacoinOutputs s)
      (consensus.commit_entries DEBUG "rogue new output in applyOutputDiff"
         "rogue non-new output in applyOutputDiff"
         consensus.scod_New consensus.scod_ID consensus.scod_SiacoinOutput
         direction ds (consensus.siacoinOutputs s)).
Proof.
  revert s. induction ds as [|d r IH]; intros s; [destruct s; reflexivity|].
  unfold consensus.commit_entries. cbn [consensus.for_range].
  unfold consensus.commitSiacoinOutputDiff, consensus.commit_entry, consensus.adds.
  destruct (if negb direction then negb (consensus.scod_New d) else consensus.scod_New d);
    match goal with
    | |- context [if ?b then Panics _ else _] => destruct b
    end; try reflexivity; rewrite IH; reflexivity.
Qed.

Lemma for_range_contracts (DEBUG direction : bool)
    (ds : list consensus.FileContractDiff) (s : consensus.State) :
  consensus.for_range (fun fcd => consensus.commitFileContractDiff DEBUG fcd direction) ds s
  = consensus.omap_outcome (consensus.set_fileContracts s)
      (consensus.commit_entries DEBUG "rogue new contract in applyContractDiff"
         "rogue non-new contract in applyContractDiff"
         consensus.fcd_New consensus.fcd_ID consensus.fcd_FileContract
         direction ds (consensus.fileContracts s)).
Proof.
  revert s. induction ds as [|d r IH]; intros s; [destruct s; reflexivity|].
  unfold consensus.commit_entries. cbn [consensus.for_range].
  unfold consensus.commitFileContractDiff, consensus.commit_entry, consensus.adds.
  destruct (if negb direction then negb (consensus.fcd_New d) else consensus.fcd_New d);
    match goal with
    | |- context [if ?b then Panics _ else _] => destruct b
    end; try reflexivity; rewrite IH; reflexivity.
Qed.

Lemma for_range_siafund (DEBUG direction : bool)
    (ds : list consensus.SiafundOutputDiff) (s : consensus.State) :
  consensus.for_range (fun sfod => consensus.commitSiafundOutputDiff DEBUG sfod direction) ds s
  = consensus.omap_outcome (consensus.set_siafundOutputs s)
      (consensus.commit_entries DEBUG "rogue new output in applyOutputDiff"
         "rogue non-new output in applyOutputDiff"
         consensus.sfod_New consensus.sfod_ID consensus.sfod_SiafundOutput
         direction ds (consensus.siafundOutputs s)).
Proof.
  revert s. induction ds as [|d r IH]; intros s; [destruct s; reflexivity|].
  unfold consensus.commit_entries. cbn [consensus.for_range].
  unfold consensus.commitSiafundOutputDiff, consensus.commit_entry, consensus.adds.
  destruct (if negb direction then negb (consensus.sfod_New d) else consensus.sfod_New d);
    match goal with
    | |- context [if ?b then Panics _ else _] => destruct b
    end; try reflexivity; rewrite IH; reflexivity.
Qed.

Lemma commit_entry_panics_iff {V} (DEBUG : bool) (msg_new msg_old : string)
    (add : bool) (k : N) (v : V) (m : gmap N V) :
  (exists msg, consensus.commit_entry DEBUG msg_new msg_old add k v m = Panics msg) <->
  DEBUG = true /\ consensus.exists_in m k = add.
Proof.
  unfold consensus.commit_entry.
  destruct add, DEBUG, (consensus.exists_in m k); cbn;
    (split;
     [ intros (msg & H); try discriminate H; split; reflexivity
     | intros (H1 & H2); try discriminate H1; try discriminate H2;
       eexists; reflexivity ]).
Qed.

Lemma omap_outcome_panics {A B} (f : A -> B) (o : outcome A) :
  (exists msg, consensus.omap_outcome f o = Panics msg) <->
  (exists msg, o = Panics msg).
Proof.
  destruct o as [a|msg]; cbn; split; intros (msg' & H);
    try discriminate H; eexists; reflexivity.
Qed.

Lemma commitSiacoinOutputDiff_entry (DEBUG forward : bool)
    (scod : consensus.SiacoinOutputDiff) (s : consensus.State) :
  consensus.commitSiacoinOutputDiff DEBUG scod forward s
  = consensus.omap_outcome (consensus.set_siacoinOutputs s)
      (consensus.commit_entry DEBUG "rogue new output in applyOutputDiff"
         "rogue non-new output in applyOutputDiff"
         (consensus.adds (consensus.scod_New scod) forward)
         (consensus.scod_ID scod) (consensus.scod_SiacoinOutput scod)
         (consensus.siacoinOutputs s)).
Proof.
  unfold consensus.commitSiacoinOutputDiff, consensus.commit_entry, consensus.adds.
  destruct (if negb forward then negb (consensus.scod_New scod)
            else consensus.scod_New scod);
    match goal with
    | |- context [if ?b then Panics _ else _] => destruct b
    end; reflexivity.
Qed.

Lemma commitFileContractDiff_entry (DEBUG forward : bool)
    (fcd : consensus.FileContractDiff) (s : consensus.State) :
  consensus.commitFileContractDiff DEBUG fcd forward s
  = consensus.omap_outcome (consensus.set_fileContracts s)
      (consensus.commit_entry DEBUG "rogue new contract in applyContractDiff"
         "rogue non-new contract in applyContractDiff"
         (consensus.adds (consensus.fcd_New fcd) forward)
         (consensus.fcd_ID fcd) (consensus.fcd_FileContract fcd)
         (consensus.fileContracts s)).
Proof.
  unfold consensus.commitFileContractDiff, consensus.commit_entry, consensus.adds.
  destruct (if negb forward then negb (consensus.fcd_New fcd)
            else consensus.fcd_New fcd);
    match goal with
    | |- context [if ?b then Panics _ else _] => destruct b
    end; reflexivity.
Qed.

Lemma commitSiafundOutputDiff_entry (DEBUG forward : bool)
    (sfod : consensus.SiafundOutputDiff) (s : consensus.State) :
  consensus.commitSiafundOutputDiff DEBUG sfod forward s
  = consensus.omap_outcome (consensus.set_siafundOutputs s)
      (consensus.commit_entry DEBUG "rogue new output in applyOutputDiff"
         "rogue non-new output in applyOutputDiff"
         (consensus.adds (consensus.sfod_New sfod) forward)
         (consensus.sfod_ID sfod) (consensus.sfod_SiafundOutput sfod)
         (consensus.siafundOutputs s)).
Proof.
  unfold consensus.commitSiafundOutputDiff, consensus.commit_entry, consensus.adds.
  destruct (if negb forward then negb (consensus.sfod_New sfod)
            else consensus.sfod_New sfod);
    match goal with
    | |- context [if ?b then Panics _ else _] => destruct b
    end; reflexivity.
Qed.

(** X14: each of the three commit functions panics exactly in a debug build
    in which the element to add is already there or the element to remove is
    not. *)
Theorem commit_diff_panics_iff (DEBUG forward : bool) (s : consensus.State)
    (scod : consensus.SiacoinOutputDiff) (fcd : consensus.FileContractDiff)
    (sfod : consensus.SiafundOutputDiff) :
  ((exists msg, consensus.commitSiacoinOutputDiff DEBUG scod forward s = Panics msg) <->
     DEBUG = true /\
     consensus.exists_in (consensus.siacoinOutputs s) (consensus.scod_ID scod)
       = consensus.adds (consensus.scod_New scod) forward) /\
  ((exists msg, consensus.commitFileContractDiff DEBUG fcd forward s = Panics msg) <->
     DEBUG = true /\
     consensus.exists_in (consensus.fileContracts s) (consensus.fcd_ID fcd)
       = consensus.adds (consensus.fcd_New fcd) forward) /\
  ((exists msg, consensus.commitSiafundOutputDiff DEBUG sfod forward s = Panics msg) <->
     DEBUG = true /\
     consensus.exists_in (consensus.siafundOutputs s) (consensus.sfod_ID sfod)
       = consensus.adds (consensus.sfod_New sfod) forward).
Proof.
  split; [|split].
  - rewrite commitSiacoinOutputDiff_entry,
      (omap_outcome_panics (consensus.set_siacoinOutputs s)).
    apply commit_entry_panics_iff.
  - rewrite commitFileContractDiff_entry,
      (omap_outcome_panics (consensus.set_fileContracts s)).
    apply commit_entry_panics_iff.
  - rewrite commitSiafundOutputDiff_entry,
      (omap_outcome_panics (consensus.set_siafundOutputs s)).
    apply commit_entry_panics_iff.
Qed.

(** X15: applying a block node's diff set and then reverting it gives the
    state back, when the node's diffs were generated, its parent's block is
    the state's current block, each of its three diff lists fits the state
    (no id twice, added elements absent, removed elements present as
    recorded), the siafund pool is the diff's previous value and the node's
    height has no delayed outputs and no path entry yet. *)
Theorem applyDiffSet_round_trip (DEBUG : bool) (bn : consensus.blockNode)
    (s : consensus.State) :
  consensus.diffsGenerated bn = true ->
  consensus.parent_block_ID bn = Some (consensus.currentBlockID s) ->
  consensus.fits consensus.scod_New consensus.scod_ID consensus.scod_SiacoinOutput
    true (consensus.siacoinOutputDiffs bn) (consensus.siacoinOutputs s) ->
  consensus.fits consensus.fcd_New consensus.fcd_ID consensus.fcd_FileContract
    true (consensus.fileContractDiffs bn) (consensus.fileContracts s) ->
  consensus.fits consensus.sfod_New consensus.sfod_ID consensus.sfod_SiafundOutput
    true (consensus.siafundOutputDiffs bn) (consensus.siafundOutputs s) ->
  consensus.siafundPool s = consensus.Previous (consensus.siafundPoolDiff bn) ->
  consensus.delayedSiacoinOutputs s !! consensus.height bn = None ->
  consensus.currentPath s !! consensus.height bn = None ->
  exists s1,
    consensus.applyDiffSet DEBUG bn true s = Returns s1 /\
    consensus.currentBlockID s1 = consensus.block_ID bn /\
    consensus.applyDiffSet DEBUG bn false s1 = Returns s.
Proof.
  intros Hgen Hpar Hsc Hfc Hsf Hpool Hdel Hpath.
  destruct s as [sco fco sfo pool del path cur]. cbn in *.
  destruct (entries_round_trip DEBUG "rogue new output in applyOutputDiff"
              "rogue non-new output in applyOutputDiff" _ _ _ true _ _ Hsc)
    as (sco' & Hsc1 & Hsc2).
  destruct (entries_round_trip DEBUG "rogue new contract in applyContractDiff"
              "rogue non-new contract in applyContractDiff" _ _ _ true _ _ Hfc)
    as (fco' & Hfc1 & Hfc2).
  destruct (entries_round_trip DEBUG "rogue new output in applyOutputDiff"
              "rogue non-new output in applyOutputDiff" _ _ _ true _ _ Hsf)
    as (sfo' & Hsf1 & Hsf2).
  cbn [negb] in Hsc2, Hfc2, Hsf2.
  unfold consensus.applyDiffSet. rewrite Hgen, Hpar. cbn [negb].
  rewrite andb_false_r.
  unfold consensus.commitSiafundPoolDiff, consensus.set_siafundPool. cbn.
  rewrite for_range_siacoin. cbn. rewrite Hsc1. cbn.
  rewrite for_range_contracts. cbn. rewrite Hfc1. cbn.
  rewrite for_range_siafund. cbn. rewrite Hsf1. cbn.
  eexists. split; [reflexivity|]. split; [reflexivity|].
  rewrite for_range_siacoin. cbn. rewrite Hsc2. cbn.
  rewrite for_range_contracts. cbn. rewrite Hfc2. cbn.
  rewrite for_range_siafund. cbn. rewrite Hsf2. cbn.
  unfold consensus.set_current, consensus.set_delayedSiacoinOutputs. cbn.
  rewrite !delete_insert_id by assumption. rewrite Hpool. reflexivity.
Qed.

Lemma applyDiffSet_round_trip_witness :
  exists s1,
    consensus.applyDiffSet true sample_node true sample_state = Returns s1 /\
    consensus.currentBlockID s1 = 100 /\
    consensus.applyDiffSet true sample_node false s1 = Returns sample_state.
Proof.
  apply (applyDiffSet_round_trip true sample_node sample_state eq_refl eq_refl).
  - split; [apply (bool_decide_unpack _); vm_compute; exact I|].
    repeat constructor.
  - split; [apply (bool_decide_unpack _); vm_compute; exact I|].
    repeat constructor.
  - split; [apply (bool_decide_unpack _); vm_compute; exact I|].
    repeat constructor.
  - reflexivity.
  - reflexivity.
  - reflexivity.
Defined.

(** Two entries at different keys commute. *)
Lemma commit_entry_commute {V} (DEBUG : bool) (msg_new msg_old : string)
    (a1 a2 : bool) (k1 k2 : N) (v1 v2 : V) (m m1 m2 : gmap N V) :
  k1 <> k2 ->
  consensus.commit_entry DEBUG msg_new msg_old a1 k1 v1 m = Returns m1 ->
  consensus.commit_entry DEBUG msg_new msg_old a2 k2 v2 m1 = Returns m2 ->
  exists m1',
    consensus.commit_entry DEBUG msg_new msg_old a2 k2 v2 m = Returns m1' /\
    consensus.commit_entry DEBUG msg_new msg_old a1 k1 v1 m1' = Returns m2.
Proof.
  intros Hne H1 H2. unfold consensus.commit_entry in *.
  destruct a1, a2;
    match type of H1 with
    | (if ?b then _ else _) = _ => destruct b eqn:E1; [discriminate H1|]
    end; injection H1 as <-;
    rewrite ?exists_in_insert_ne, ?exists_in_delete_ne in H2 by exact Hne;
    match type of H2 with
    | (if ?b then _ else _) = _ => destruct b eqn:E2; [discriminate H2|]
    end; injection H2 as <-;
    eexists; (split; [reflexivity|]);
    rewrite ?exists_in_insert_ne, ?exists_in_delete_ne by congruence;
    rewrite E1; f_equal.
  - apply insert_insert_ne. congruence.
  - symmetry. apply delete_insert_ne. congruence.
  - apply delete_insert_ne. congruence.
  - apply delete_delete.
Qed.

(** X16: two siacoin output diffs with different ids can be applied in
    either order: if applying the first and then the second succeeds, so
    does applying the second and then the first, with the same state. *)
Theorem commitSiacoinOutputDiff_commute (DEBUG forward : bool)
    (d1 d2 : consensus.SiacoinOutputDiff) (s s1 s2 : consensus.State) :
  consensus.scod_ID d1 <> consensus.scod_ID d2 ->
  consensus.commitSiacoinOutputDiff DEBUG d1 forward s = Returns s1 ->
  consensus.commitSiacoinOutputDiff DEBUG d2 forward s1 = Returns s2 ->
  exists s1',
    consensus.commitSiacoinOutputDiff DEBUG d2 forward s = Returns s1' /\
    consensus.commitSiacoinOutputDiff DEBUG d1 forward s1' = Returns s2.
Proof.
  intros Hne H1 H2. rewrite commitSiacoinOutputDiff_entry in H1, H2.
  destruct (consensus.commit_entry _ _ _ _ _ _ (consensus.siacoinOutputs s))
    as [m1|] eqn:E1 in H1; [|discriminate H1].
  cbn in H1. injection H1 as <-. cbn in H2.
  destruct (consensus.commit_entry _ _ _ _ _ _ m1) as [m2|] eqn:E2 in H2;
    [|discriminate H2].
  cbn in H2. injection H2 as <-.
  destruct (commit_entry_commute _ _ _ _ _ _ _ _ _ _ _ _ Hne E1 E2) as (m1' & F1 & F2).
  exists (consensus.set_siacoinOutputs s m1'). split.
  - rewrite commitSiacoinOutputDiff_entry, F1. reflexivity.
  - rewrite commitSiacoinOutputDiff_entry.
    cbn [consensus.siacoinOutputs consensus.set_siacoinOutputs].
    rewrite F2. destruct s; reflexivity.
Qed.

Lemma commitSiacoinOutputDiff_commute_witness :
  let d1 := consensus.mkSiacoinOutputDiff true 1 (out 3) in
  let d2 := consensus.mkSiacoinOutputDiff false 5 (out 9) in
  exists s1 s2 s1',
    consensus.commitSiacoinOutputDiff true d1 true sample_state = Returns s1 /\
    consensus.commitSiacoinOutputDiff true d2 true s1 = Returns s2 /\
    consensus.commitSiacoinOutputDiff true d2 true sample_state = Returns s1' /\
    consensus.commitSiacoinOutputDiff true d1 true s1' = Returns s2.
Proof.
  cbn zeta. eexists. eexists.
  destruct (commitSiacoinOutputDiff_commute true true
              (consensus.mkSiacoinOutputDiff true 1 (out 3))
              (consensus.mkSiacoinOutputDiff false 5 (out 9))
              sample_state _ _ ltac:(discriminate) eq_refl eq_refl)
    as (s1' & Ha & Hb).
  exists s1'. split; [reflexivity|]. split; [reflexivity|].
  split; [exact Ha | exact Hb].
Defined.

Lemma for_range_nil {D S} (f : D -> S -> outcome S) (s : S) :
  consensus.for_range f [] s = Returns s.
Proof. reflexivity. Qed.

(** Creating and then spending an output, applied and reverted. *)
Lemma respend_forward (DEBUG : bool) (s : consensus.State)
    (x : consensus.SiacoinOutputID) (v : types.SiacoinOutput) :
  consensus.siacoinOutputs s !! x = None ->
  consensus.for_range (fun scod => consensus.commitSiacoinOutputDiff DEBUG scod true)
    [consensus.mkSiacoinOutputDiff true x v; consensus.mkSiacoinOutputDiff false x v] s
  = Returns (consensus.set_siacoinOutputs s (consensus.siacoinOutputs s)).
Proof.
  intros Hx. rewrite for_range_siacoin. unfold consensus.commit_entries.
  cbn [consensus.for_range consensus.adds negb consensus.scod_New consensus.scod_ID
       consensus.scod_SiacoinOutput].
  unfold consensus.commit_entry, consensus.exists_in.
  rewrite Hx, andb_false_r, lookup_insert_eq. cbn [negb]. rewrite andb_false_r.
  cbn [consensus.omap_outcome]. rewrite delete_insert_id by exact Hx. reflexivity.
Qed.

Lemma respend_backward (DEBUG : bool) (s : consensus.State)
    (x : consensus.SiacoinOutputID) (v : types.SiacoinOutput) :
  consensus.siacoinOutputs s !! x = None ->
  consensus.for_range (fun scod => consensus.commitSiacoinOutputDiff DEBUG scod false)
    [consensus.mkSiacoinOutputDiff true x v; consensus.mkSiacoinOutputDiff false x v] s
  = if DEBUG then Panics "rogue non-new output in applyOutputDiff"
    else Returns (consensus.set_siacoinOutputs s
                    (<[x := v]> (consensus.siacoinOutputs s))).
Proof.
  intros Hx. rewrite for_range_siacoin. unfold consensus.commit_entries.
  cbn [consensus.for_range consensus.adds negb consensus.scod_New consensus.scod_ID
       consensus.scod_SiacoinOutput].
  unfold consensus.commit_entry, consensus.exists_in.
  rewrite Hx. cbn [negb]. rewrite andb_true_r.
  destruct DEBUG; [reflexivity|]. cbn [andb].
  cbn [consensus.omap_outcome]. rewrite delete_id by exact Hx. reflexivity.
Qed.

(** X17: reverting applies the diffs in the order they were recorded.  For a
    node that creates an output and spends it again (and has no other
    diffs), on a state without that output, applying succeeds and leaves the
    output absent; reverting the result then panics in a debug build and
    otherwise returns a state in which the output is present. *)
Theorem applyDiffSet_respend_not_reverted (DEBUG : bool)
    (bn : consensus.blockNode) (s : consensus.State)
    (x : consensus.SiacoinOutputID) (v : types.SiacoinOutput) (parent : consensus.BlockID) :
  consensus.diffsGenerated bn = true ->
  consensus.parent_block_ID bn = Some parent ->
  consensus.siacoinOutputDiffs bn
    = [consensus.mkSiacoinOutputDiff true x v; consensus.mkSiacoinOutputDiff false x v] ->
  consensus.fileContractDiffs bn = [] ->
  consensus.siafundOutputDiffs bn = [] ->
  consensus.siacoinOutputs s !! x = None ->
  exists s1,
    consensus.applyDiffSet DEBUG bn true s = Returns s1 /\
    consensus.siacoinOutputs s1 !! x = None /\
    if DEBUG
    then consensus.applyDiffSet DEBUG bn false s1
           = Panics "rogue non-new output in applyOutputDiff"
    else exists s2,
           consensus.applyDiffSet DEBUG bn false s1 = Returns s2 /\
           consensus.siacoinOutputs s2 !! x = Some v.
Proof.
  intros Hgen Hpar Hsc Hfc Hsf Hx.
  unfold consensus.applyDiffSet. rewrite Hgen, Hpar, Hsc, Hfc, Hsf.
  cbn [negb]. rewrite andb_false_r.
  eexists. rewrite respend_forward by exact Hx.
  rewrite !for_range_nil.
  split; [reflexivity|]. split; [exact Hx|].
  rewrite respend_backward by exact Hx.
  destruct DEBUG; [reflexivity|]. cbn [consensus.for_range].
  eexists. split; [reflexivity|]. apply lookup_insert_eq.
Qed.

Lemma applyDiffSet_respend_not_reverted_witness :
  exists s1,
    consensus.applyDiffSet false sample_node_respend true sample_state = Returns s1 /\
    consensus.siacoinOutputs s1 !! 1 = None /\
    exists s2,
      consensus.applyDiffSet false sample_node_respend false s1 = Returns s2 /\
      consensus.siacoinOutputs s2 !! 1 = Some (out 3).
Proof.
  exact (applyDiffSet_respend_not_reverted false sample_node_respend sample_state
           1 (out 3) 99 eq_refl eq_refl eq_refl eq_refl eq_refl eq_refl).
Defined.

(** X18: reverting a node without a parent never returns: it panics,
    whatever the state. *)
Theorem applyDiffSet_revert_orphan_panics (DEBUG : bool)
    (bn : consensus.blockNode) (s : consensus.State) :
  consensus.parent_block_ID bn = None ->
  exists msg, consensus.applyDiffSet DEBUG bn false s = Panics msg.
Proof.
  intros Hpar. unfold consensus.applyDiffSet. rewrite Hpar.
  destruct (DEBUG && negb (consensus.diffsGenerated bn)); [eauto|].
  destruct (consensus.for_range _ (consensus.siacoinOutputDiffs bn) _); [|eauto].
  destruct (consensus.for_range _ (consensus.fileContractDiffs bn) _); [|eauto].
  destruct (consensus.for_range _ (consensus.siafundOutputDiffs bn) _); eauto.
Qed.

Lemma applyDiffSet_revert_orphan_panics_witness :
  exists msg,
    consensus.applyDiffSet false
      (consensus.mkBlockNode 100 None 7 true (consensus.mkSiafundPoolDiff 0 4)
         [] [] [] ∅) false sample_state = Panics msg.
Proof.
  exact (applyDiffSet_revert_orphan_panics false
           (consensus.mkBlockNode 100 None 7 true (consensus.mkSiafundPoolDiff 0 4)
              [] [] [] ∅) sample_state eq_refl).
Defined.

(** ** Snapshots: sectors and hosts *)

Lemma go_copy_length {A} (dst src : list A) :
  length (go_copy dst src) = length dst.
Proof.
  unfold go_copy. rewrite length_app, length_take, length_drop. lia.
Qed.

Lemma split_loop_chunks (SectorSize fuel : nat) (buf : list byte)
    (acc : list (list byte)) :
  (0 < SectorSize)%nat -> (length buf <= fuel)%nat ->
  snapshot.split_loop SectorSize fuel buf acc
    = Some (acc ++ snapshot.chunks SectorSize fuel buf).
Proof.
  intros Hss. revert buf acc. induction fuel as [|fuel IH]; intros buf acc Hlen.
  - destruct buf; [|cbn in Hlen; lia]. cbn. rewrite app_nil_r. reflexivity.
  - destruct buf as [|b buf]; [cbn; rewrite app_nil_r; reflexivity|].
    cbn [snapshot.split_loop snapshot.chunks].
    rewrite IH.
    + rewrite <- app_assoc. reflexivity.
    + rewrite length_drop. cbn [length] in *. lia.
Qed.

Lemma chunks_lengths (SectorSize fuel : nat) (buf : list byte) :
  Forall (fun sector => length sector = SectorSize)
    (snapshot.chunks SectorSize fuel buf).
Proof.
  revert buf. induction fuel as [|fuel IH]; intros [|b buf]; cbn [snapshot.chunks];
    try constructor.
  - rewrite go_copy_length. apply length_replicate.
  - apply IH.
Qed.

Lemma chunks_concat (SectorSize fuel : nat) (buf : list byte) :
  (0 < SectorSize)%nat -> (length buf <= fuel)%nat ->
  take (length buf) (concat (snapshot.chunks SectorSize fuel buf)) = buf.
Proof.
  intros Hss. revert buf. induction fuel as [|fuel IH]; intros buf Hlen.
  - destruct buf; [reflexivity | cbn in Hlen; lia].
  - destruct buf as [|b buf]; [reflexivity|].
    cbn [snapshot.chunks concat].
    set (l := b :: buf) in *.
    assert (Hd : (length (drop SectorSize l) <= fuel)%nat).
    { rewrite length_drop. subst l. cbn [length] in *. lia. }
    specialize (IH _ Hd).
    unfold go_copy. rewrite length_replicate, length_take.
    rewrite take_take, Nat.min_id.
    destruct (Nat.le_gt_cases (length l) SectorSize) as [Hle|Hgt].
    + rewrite (take_ge l) by exact Hle.
      rewrite <- app_assoc, take_app_length. reflexivity.
    + rewrite Nat.min_l by lia.
      rewrite drop_ge by (rewrite length_replicate; lia).
      rewrite app_nil_r.
      rewrite take_app_ge by (rewrite length_take; lia).
      rewrite length_take, Nat.min_l by lia.
      replace (length l - SectorSize)%nat with (length (drop SectorSize l))
        by (rewrite length_drop; reflexivity).
      rewrite IH. apply take_drop.
Qed.

Lemma chunks_count (SectorSize fuel : nat) (buf : list byte) (k : nat) :
  (0 < SectorSize)%nat -> (length buf <= fuel)%nat ->
  (length (snapshot.chunks SectorSize fuel buf) <= k)%nat
  <-> (length buf <= k * SectorSize)%nat.
Proof.
  intros Hss. revert buf k. induction fuel as [|fuel IH]; intros buf k Hlen.
  - destruct buf; [cbn; lia | cbn in Hlen; lia].
  - destruct buf as [|b buf]; [cbn; lia|].
    cbn [snapshot.chunks length].
    set (l := b :: buf) in *.
    assert (Hd : (length (drop SectorSize l) <= fuel)%nat).
    { rewrite length_drop. subst l. cbn [length] in *. lia. }
    destruct k as [|k].
    + subst l. cbn [length Nat.mul]. lia.
    + rewrite <- Nat.succ_le_mono, (IH _ k Hd), length_drop.
      subst l. cbn [Nat.mul length]. lia.
Qed.

Lemma sector_of_short (SectorSize : nat) (l : list byte) :
  (length l <= SectorSize)%nat ->
  go_copy (replicate SectorSize "000"%byte) (take SectorSize l)
    = l ++ replicate (SectorSize - length l) "000"%byte.
Proof.
  intros Hle. unfold go_copy.
  rewrite length_replicate, take_take, Nat.min_id, (take_ge l) by exact Hle.
  rewrite drop_replicate. reflexivity.
Qed.

Lemma sector_of_long (SectorSize : nat) (l : list byte) :
  (SectorSize <= length l)%nat ->
  go_copy (replicate SectorSize "000"%byte) (take SectorSize l) = take SectorSize l.
Proof.
  intros Hle. unfold go_copy.
  rewrite length_replicate, take_take, Nat.min_id.
  rewrite drop_ge by (rewrite length_replicate, length_take; lia).
  apply app_nil_r.
Qed.

(** The sectors put together are the buffer followed by zero bytes up to a
    whole number of sectors. *)
Lemma chunks_concat_padded (SectorSize fuel : nat) (buf : list byte) :
  (0 < SectorSize)%nat -> (length buf <= fuel)%nat ->
  concat (snapshot.chunks SectorSize fuel buf)
    = buf ++ replicate
               (length (snapshot.chunks SectorSize fuel buf) * SectorSize - length buf)
               "000"%byte.
Proof.
  intros Hss. revert buf. induction fuel as [|fuel IH]; intros buf Hlen.
  - destruct buf; [reflexivity | cbn in Hlen; lia].
  - destruct buf as [|b buf]; [reflexivity|].
    cbn [snapshot.chunks concat length]. set (l := b :: buf) in *.
    assert (Hd : (length (drop SectorSize l) <= fuel)%nat).
    { rewrite length_drop. subst l. cbn [length] in *. lia. }
    rewrite (IH _ Hd). rewrite length_drop.
    set (n := length (snapshot.chunks SectorSize fuel (drop SectorSize l))).
    destruct (Nat.le_gt_cases (length l) SectorSize) as [Hle|Hgt].
    + assert (Hn : n = 0%nat).
      { subst n. rewrite (drop_ge l) by exact Hle. destruct fuel; reflexivity. }
      rewrite sector_of_short by exact Hle.
      rewrite (drop_ge l) by exact Hle. cbn [app].
      rewrite <- app_assoc, <- replicate_add. do 2 f_equal.
      rewrite Hn. subst l. cbn [Nat.mul length] in *. lia.
    + rewrite sector_of_long by lia.
      rewrite app_assoc, take_drop. do 2 f_equal.
      subst l. cbn [Nat.mul length] in *. lia.
Qed.

(** X19: for a positive sector size the splitting loop ends; every sector
    it makes has exactly [SectorSize] bytes; the sectors put together are the
    snapshot followed by zero bytes only (the padding of the last sector),
    so cut to the snapshot's length they are the snapshot; and the snapshot
    is refused as too large exactly when it is longer than 4 sectors. *)
Theorem snapshot_sectors_spec (SectorSize : nat) (dotSia : list byte) :
  (0 < SectorSize)%nat ->
  exists sectors err,
    snapshot.snapshot_sectors SectorSize dotSia = Some (sectors, err) /\
    Forall (fun sector => length sector = SectorSize) sectors /\
    concat sectors
      = dotSia ++ replicate (length sectors * SectorSize - length dotSia) "000"%byte /\
    (length sectors * SectorSize - length dotSia < SectorSize)%nat /\
    take (length dotSia) (concat sectors) = dotSia /\
    (err = Some (ErrNew "snapshot is too large")
       <-> (4 * SectorSize < length dotSia)%nat) /\
    (err = None <-> (length dotSia <= 4 * SectorSize)%nat).
Proof.
  intros Hss. unfold snapshot.snapshot_sectors.
  rewrite (split_loop_chunks SectorSize (length dotSia) dotSia [] Hss (Nat.le_refl _)).
  cbn [app].
  pose proof (chunks_count SectorSize (length dotSia) dotSia 4 Hss (Nat.le_refl _))
    as Hcount.
  assert (Hpad : (length (snapshot.chunks SectorSize (length dotSia) dotSia) * SectorSize
                  - length dotSia < SectorSize)%nat).
  { set (n := length (snapshot.chunks SectorSize (length dotSia) dotSia)).
    destruct n as [|k] eqn:En; [cbn; lia|].
    pose proof (chunks_count SectorSize (length dotSia) dotSia k Hss (Nat.le_refl _))
      as Hk.
    fold n in Hk. rewrite En in Hk.
    assert (Hgt : ~ (length dotSia <= k * SectorSize)%nat).
    { intros Hc. apply Hk in Hc. lia. }
    cbn [Nat.mul]. lia. }
  destruct (Nat.ltb_spec 4 (length (snapshot.chunks SectorSize (length dotSia) dotSia)))
    as [Hgt|Hle];
    eexists _, _; (split; [reflexivity|]);
    (split; [apply chunks_lengths|]);
    (split; [apply chunks_concat_padded; [exact Hss | apply Nat.le_refl]|]);
    (split; [exact Hpad|]);
    (split; [apply chunks_concat; [exact Hss | apply Nat.le_refl]|]);
    split; split; intros H; try discriminate H; try reflexivity; lia.
Qed.

Lemma snapshot_sectors_spec_witness :
  exists sectors err,
    snapshot.snapshot_sectors 2 ["001"; "002"; "003"]%byte = Some (sectors, err) /\
    Forall (fun sector => length sector = 2%nat) sectors /\
    concat sectors
      = (["001"; "002"; "003"] ++ replicate (length sectors * 2 - 3) "000")%byte /\
    (length sectors * 2 - 3 < 2)%nat /\
    take 3 (concat sectors) = ["001"; "002"; "003"]%byte /\
    (err = Some (ErrNew "snapshot is too large") <-> (4 * 2 < 3)%nat) /\
    (err = None <-> (3 <= 4 * 2)%nat).
Proof.
  exact (snapshot_sectors_spec 2 ["001"; "002"; "003"]%byte ltac:(lia)).
Defined.

Lemma download_entry_chunks (Download : types.Hash -> list byte * option error)
    (SectorSize fuel : nat) (buf acc : list byte) (rs extra : list types.Hash) :
  (0 < SectorSize)%nat -> (length buf <= fuel)%nat -> buf <> [] ->
  Forall2 (fun root sector => Download root = (sector, None)) rs
    (snapshot.chunks SectorSize fuel buf) ->
  snapshot.download_entry Download (rs ++ extra) (length acc + length buf) acc
    = (acc ++ buf, None).
Proof.
  intros Hss. revert buf acc rs.
  induction fuel as [|fuel IH]; intros buf acc rs Hlen Hne Hall.
  - destruct buf; [destruct (Hne eq_refl) | cbn in Hlen; lia].
  - destruct buf as [|b buf]; [destruct (Hne eq_refl)|].
    cbn [snapshot.chunks] in Hall. set (l := b :: buf) in *.
    inversion Hall as [|root sector rs' rest Hroot Hrest]; subst.
    cbn [app snapshot.download_entry]. rewrite Hroot.
    destruct (Nat.le_gt_cases (length l) SectorSize) as [Hle|Hgt].
    + rewrite sector_of_short by exact Hle.
      rewrite length_app, length_app, length_replicate.
      rewrite (proj2 (Nat.leb_le _ _)) by lia.
      rewrite app_assoc, take_app_le by (rewrite length_app; lia).
      rewrite take_ge by (rewrite length_app; lia). reflexivity.
    + rewrite sector_of_long in * by lia.
      rewrite length_app, length_take, Nat.min_l by lia.
      rewrite (proj2 (Nat.leb_gt _ _)) by lia.
      replace (length acc + length l)%nat
        with (length (acc ++ take SectorSize l) + length (drop SectorSize l))%nat
        by (rewrite length_app, length_take, length_drop; lia).
      rewrite (IH (drop SectorSize l) (acc ++ take SectorSize l) rs').
      * rewrite <- app_assoc, take_drop. reflexivity.
      * rewrite length_drop. subst l. cbn [length] in *. lia.
      * intros Hnil. apply (f_equal length) in Hnil.
        rewrite length_drop in Hnil. cbn [length] in Hnil. lia.
      * exact Hrest.
Qed.

(** X20: what the download loop puts together from the sectors the upload
    made is the snapshot: for a positive sector size and a non-empty
    snapshot that is not too large, if the host returns, for the leading
    roots of the entry, the sectors of the snapshot in order, the loop
    returns the snapshot, whatever roots follow. *)
Theorem download_entry_round_trip
    (Download : types.Hash -> list byte * option error)
    (SectorSize : nat) (dotSia : list byte) (sectors : list (list byte))
    (roots extra : list types.Hash) :
  (0 < SectorSize)%nat ->
  dotSia <> [] ->
  snapshot.snapshot_sectors SectorSize dotSia = Some (sectors, None) ->
  Forall2 (fun root sector => Download root = (sector, None)) roots sectors ->
  snapshot.download_entry Download (roots ++ extra) (length dotSia) [] = (dotSia, None).
Proof.
  intros Hss Hne Hsec Hall. unfold snapshot.snapshot_sectors in Hsec.
  rewrite (split_loop_chunks SectorSize (length dotSia) dotSia [] Hss (Nat.le_refl _))
    in Hsec.
  cbn [app] in Hsec.
  destruct (4 <? length _)%nat in Hsec; [discriminate Hsec|].
  injection Hsec as <-.
  apply (download_entry_chunks Download SectorSize (length dotSia) dotSia [] roots extra
           Hss (Nat.le_refl _) Hne Hall).
Qed.

Lemma download_entry_round_trip_witness :
  snapshot.download_entry (fun root => (root, None))
    ([["001"; "002"]; ["003"; "000"]] ++ [[]; []])%byte 3 []
  = (["001"; "002"; "003"]%byte, None).
Proof.
  apply (download_entry_round_trip (fun root => (root, None)) 2
           ["001"; "002"; "003"]%byte [["001"; "002"]; ["003"; "000"]]%byte
           [["001"; "002"]; ["003"; "000"]]%byte [[]; []]
           ltac:(lia) ltac:(discriminate) eq_refl).
  repeat constructor.
Defined.

Section MissingHosts.
Variable String_ : types.SiaPublicKey -> string.

Local Abbreviation known_to := (snapshot.known_to String_).

Lemma found_among_spec (hosts : list types.SiaPublicKey) (c : snapshot.RenterContract) :
  snapshot.found_among String_ hosts c = true
  <-> known_to hosts (snapshot.HostPublicKey c).
Proof.
  unfold snapshot.found_among, snapshot.known_to.
  assert (Hgen : forall acc,
    fold_left (fun found h =>
                 found || String.eqb (String_ h) (String_ (snapshot.HostPublicKey c)))
      hosts acc = true
    <-> acc = true \/
        exists h, h ∈ hosts /\ String_ h = String_ (snapshot.HostPublicKey c)).
  { induction hosts as [|h r IH]; intros acc; cbn [fold_left].
    - split; [auto|]. intros [H|(h & Hin & _)]; [exact H|].
      apply elem_of_nil in Hin. destruct Hin.
    - rewrite IH, orb_true_iff, String.eqb_eq. split.
      + intros [[H|H]|(h' & Hin & Heq)]; [left; exact H | right | right].
        * exists h. split; [apply list_elem_of_here | exact H].
        * exists h'. split; [apply list_elem_of_further, Hin | exact Heq].
      + intros [H|(h' & Hin & Heq)]; [left; left; exact H|].
        apply elem_of_cons in Hin as [->|Hin]; [left; right; exact Heq|].
        right. exists h'. split; assumption. }
  rewrite Hgen. split; [intros [H|H]; [discriminate H | exact H] | auto].
Qed.

Lemma calcMissingHosts_acc (pb : snapshot.persistBackup)
    (contracts : list snapshot.RenterContract) (acc : list types.SiaPublicKey) :
  fold_left
    (fun missing c =>
       if negb (snapshot.found_among String_ (snapshot.Hosts pb) c)
       then missing ++ [snapshot.HostPublicKey c] else missing)
    contracts acc
  = acc ++ map snapshot.HostPublicKey
             (List.filter
                (fun c => negb (snapshot.found_among String_ (snapshot.Hosts pb) c))
                contracts).
Proof.
  revert acc. induction contracts as [|c r IH]; intros acc; cbn [fold_left List.filter].
  - rewrite app_nil_r. reflexivity.
  - rewrite IH.
    destruct (negb (snapshot.found_among String_ (snapshot.Hosts pb) c)); cbn [map].
    + rewrite <- app_assoc. reflexivity.
    + reflexivity.
Qed.

(** X21: [calcMissingHosts] returns, in the order of the contracts, the
    host keys of the contracts whose printed form is that of no host of the
    backup; so it returns nothing exactly when every contract's host is
    known to the backup, and as many keys as there are contracts exactly
    when none is. *)
Theorem calcMissingHosts_spec (pb : snapshot.persistBackup)
    (contracts : list snapshot.RenterContract) :
  let missing := snapshot.calcMissingHosts String_ pb contracts in
  (forall k, k ∈ missing <->
     (exists c, c ∈ contracts /\ snapshot.HostPublicKey c = k) /\
     ~ known_to (snapshot.Hosts pb) k) /\
  missing `sublist_of` map snapshot.HostPublicKey contracts /\
  (length missing = 0%nat <->
     forall c, c ∈ contracts -> known_to (snapshot.Hosts pb) (snapshot.HostPublicKey c)) /\
  (length missing = length contracts <->
     forall c, c ∈ contracts -> ~ known_to (snapshot.Hosts pb) (snapshot.HostPublicKey c)).
Proof.
  cbn zeta. unfold snapshot.calcMissingHosts. rewrite calcMissingHosts_acc. cbn [app].
  set (t := fun c => negb (snapshot.found_among String_ (snapshot.Hosts pb) c)).
  assert (Ht : forall c, t c = true
                         <-> ~ known_to (snapshot.Hosts pb) (snapshot.HostPublicKey c)).
  { intros c. unfold t. rewrite negb_true_iff, <- found_among_spec.
    destruct (snapshot.found_among String_ (snapshot.Hosts pb) c); split;
      intros H; try discriminate H; try reflexivity; try congruence. }
  clearbody t.
  split; [|split; [|split]].
  - intros k. rewrite list_elem_of_fmap. split.
    + intros (c & -> & Hin). apply list_elem_of_In, List.filter_In in Hin as [Hin Htc].
      split; [exists c; split; [apply list_elem_of_In, Hin | reflexivity]|].
      apply Ht, Htc.
    + intros ((c & Hin & <-) & Hk). exists c. split; [reflexivity|].
      apply list_elem_of_In, List.filter_In. split; [apply list_elem_of_In, Hin|].
      apply Ht, Hk.
  - induction contracts as [|c r IH]; cbn [List.filter map]; [constructor|].
    destruct (t c); cbn [map]; [apply sublist_skip, IH | apply sublist_cons, IH].
  - rewrite length_map. induction contracts as [|c r IH]; cbn [List.filter].
    + split; [|reflexivity]. intros _ c Hin. apply elem_of_nil in Hin. destruct Hin.
    + destruct (t c) eqn:Htc; cbn [length].
      * split; [discriminate|]. intros H. exfalso.
        apply (proj1 (Ht c) Htc), H, list_elem_of_here.
      * rewrite IH. split.
        -- intros H c' Hin. apply elem_of_cons in Hin as [->|Hin]; [|apply H, Hin].
           destruct (snapshot.found_among String_ (snapshot.Hosts pb) c) eqn:E;
             [apply found_among_spec, E|].
           exfalso.
           assert (Hn : ~ known_to (snapshot.Hosts pb) (snapshot.HostPublicKey c)).
           { intros Hk. apply found_among_spec in Hk. congruence. }
           apply Ht in Hn. congruence.
        -- intros H c' Hin. apply H, list_elem_of_further, Hin.
  - rewrite length_map. induction contracts as [|c r IH]; cbn [List.filter length].
    + split; [|reflexivity]. intros _ c Hin. apply elem_of_nil in Hin. destruct Hin.
    + pose proof (List.filter_length_le t r) as Hle.
      destruct (t c) eqn:Htc; cbn [length].
      * split.
        -- intros H c' Hin. apply elem_of_cons in Hin as [->|Hin]; [apply Ht, Htc|].
           apply IH; [lia | exact Hin].
        -- intros H. f_equal. apply IH. intros c' Hin.
           apply H, list_elem_of_further, Hin.
      * split; [lia|]. intros H. exfalso.
        assert (Hc : t c = true) by (apply Ht, H, list_elem_of_here).
        congruence.
Qed.

End MissingHosts.
